(** * Nginx log watcher (watcher/watcher.py): failover and error-rate alerts

    A shallow embedding of the watcher's processing loop and the proofs of
    its specification.

    Modelling conventions.
    - Python values that reach the watcher are the values [json.loads]
      builds, plus [None]; they are the inductive type [pyval].
    - A Python [str] is a [string] whose characters are the code points
      U+0000..U+00FF.  The content of the log file is a [string] of bytes;
      [codec] is the encoding that text-mode reads decode it with.
    - Python floats are the binary64 numbers of [PrimFloat].
    - The module-level variables of the watcher are fields of [machine];
      functions that read or assign them, read the clock, post to the
      webhook or raise are computations of the monad [M].
    - [time.time] and [requests.post] are oracles ([clock], [network]) that
      are indexed by the number of calls made so far; [json.loads] is the
      oracle [json_loads], which returns a value, raises [JSONDecodeError]
      or raises another exception.
    - Console output ([print]) and the wall-clock text that
      [datetime.now] puts into alert messages are not modelled. *)

From Stdlib Require Import ZArith QArith List String Ascii Bool Arith Lia Floats.
Import ListNotations.

Local Open Scope string_scope.
Local Open Scope list_scope.
Local Open Scope Z_scope.

(** ** Python strings *)

Module PyStr.

(** [str.isspace] on one character, for code points below 256. *)
Definition isspace (c : ascii) : bool :=
  let n := nat_of_ascii c in
  ((9 <=? n) && (n <=? 13) || (28 <=? n) && (n <=? 32)
   || (n =? 133) || (n =? 160))%nat.

(** ASCII decimal digit, the only digits [int] accepts below 256. *)
Definition isdecimal_char (c : ascii) : bool :=
  let n := nat_of_ascii c in ((48 <=? n) && (n <=? 57))%nat.

(** [str.isdigit] on one character: the decimal digits and the
    superscripts U+00B2, U+00B3, U+00B9. *)
Definition isdigit_char (c : ascii) : bool :=
  let n := nat_of_ascii c in
  (isdecimal_char c || (n =? 178) || (n =? 179) || (n =? 185))%nat.

Fixpoint all_chars (p : ascii -> bool) (s : string) : bool :=
  match s with
  | EmptyString => true
  | String c r => p c && all_chars p r
  end.

(** [str.isascii] on one character. *)
Definition isascii (c : ascii) : bool := (nat_of_ascii c <? 128)%nat.

(** [s.isdigit()]: non-empty and every character is a digit. *)
Definition isdigit (s : string) : bool :=
  match s with
  | EmptyString => false
  | _ => all_chars isdigit_char s
  end.

Fixpoint lstrip (s : string) : string :=
  match s with
  | EmptyString => EmptyString
  | String c r => if isspace c then lstrip r else s
  end.

Fixpoint rstrip (s : string) : string :=
  match s with
  | EmptyString => EmptyString
  | String c r =>
      match rstrip r with
      | EmptyString => if isspace c then EmptyString else String c EmptyString
      | r' => String c r'
      end
  end.

(** [s.strip()] *)
Definition strip (s : string) : string := rstrip (lstrip s).

(** [s.split(sep)] for a one-character separator. *)
Fixpoint split (sep : ascii) (s : string) : list string :=
  match s with
  | EmptyString => [EmptyString]
  | String c r =>
      if Ascii.eqb c sep then EmptyString :: split sep r
      else match split sep r with
           | h :: t => String c h :: t
           | [] => [String c EmptyString]
           end
  end.

(** [needle in hay] for two strings. *)
Fixpoint contains (needle hay : string) : bool :=
  prefix needle hay
  || match hay with
     | EmptyString => false
     | String _ r => contains needle r
     end.

(** Value of a string of decimal digits, most significant first. *)
Fixpoint decimal_value (acc : Z) (s : string) : Z :=
  match s with
  | EmptyString => acc
  | String c r => decimal_value (10 * acc + (Z.of_nat (nat_of_ascii c) - 48)) r
  end.

Fixpoint drop (n : nat) (s : string) : string :=
  match n, s with
  | O, _ => s
  | S _, EmptyString => EmptyString
  | S k, String _ r => drop k r
  end.

(** Universal-newline translation of text-mode reads: CR LF and a lone CR
    both become LF. *)
Fixpoint translate_newlines (s : string) : string :=
  match s with
  | EmptyString => EmptyString
  | String c r =>
      if Ascii.eqb c "013" then
        match r with
        | String d r' =>
            if Ascii.eqb d "010" then String "010" (translate_newlines r')
            else String "010" (translate_newlines r)
        | EmptyString => String "010" EmptyString
        end
      else String c (translate_newlines r)
  end.

(** Lines of a text, each with its terminating LF; a last line without
    LF is a line too. *)
Fixpoint splitlines_keepends (s : string) : list string :=
  match s with
  | EmptyString => []
  | String c r =>
      if Ascii.eqb c "010" then String c EmptyString :: splitlines_keepends r
      else match splitlines_keepends r with
           | h :: t => String c h :: t
           | [] => [String c EmptyString]
           end
  end.

End PyStr.


(** ** Python values *)

#[local] Set Warnings "-register-all".

(** The values [json.loads] returns, and [None].  A [PDict] lists the items
    of a dict in insertion order; the decoder keeps one item per key. *)
Inductive pyval : Type :=
| PNone
| PBool (b : bool)
| PInt (n : Z)
| PFloat (f : float)
| PStr (s : string)
| PList (items : list pyval)
| PDict (items : list (string * pyval)).

(** Exceptions the processing loop can meet. *)
Inductive exn : Type :=
| AttributeError
| TypeError
| ValueError
| IndexError
| RecursionError
| UnicodeDecodeError
| OSError.

(** What [json.loads] does on a text: it returns a value, raises
    [JSONDecodeError], or raises another exception ([ValueError] on an
    integer literal of more than 4300 digits, [RecursionError] on deep
    nesting). *)
Inductive loads_result : Type :=
| Loaded (v : pyval)
| JSONDecodeError
| LoadsRaises (e : exn).

(** The encoding of text-mode reads: [decode] gives the text of a string
    of bytes, or [None] when it raises [UnicodeDecodeError]; no bytes
    decode to no text. *)
Record codec : Type := {
  decode : string -> option string;
  decode_empty : decode EmptyString = Some EmptyString
}.

Inductive res (A : Type) : Type :=
| Ok (a : A)
| Raise (e : exn).
Arguments Ok {A} a.
Arguments Raise {A} e.

Module Py.

(** Signed mantissa of a finite binary64 number. *)
Definition signed (s : bool) (m : positive) : Z :=
  if s then Z.neg m else Z.pos m.

(** [f == n] for a float and an int: Python compares the exact values. *)
Definition float_eq_int (f : float) (n : Z) : bool :=
  match Prim2SF f with
  | S754_zero _ => n =? 0
  | S754_infinity _ => false
  | S754_nan => false
  | S754_finite s m e =>
      if 0 <=? e then signed s m * 2 ^ e =? n
      else signed s m =? n * 2 ^ (- e)
  end.

(** [f > n] for a float and an int, on the exact values. *)
Definition float_gt_int (f : float) (n : Z) : bool :=
  match Prim2SF f with
  | S754_zero _ => n <? 0
  | S754_infinity s => negb s
  | S754_nan => false
  | S754_finite s m e =>
      if 0 <=? e then n <? signed s m * 2 ^ e
      else n * 2 ^ (- e) <? signed s m
  end.

(** [int(f)] for a finite float: truncation towards zero.  The watcher
    applies it to clock readings only, which are finite; [int] raises on
    an infinity or a NaN, where this function gives 0. *)
Definition int_of_float (f : float) : Z :=
  match Prim2SF f with
  | S754_finite s m e =>
      if 0 <=? e then signed s m * 2 ^ e
      else Z.quot (signed s m) (2 ^ (- e))
  | _ => 0
  end.

(** [float(n)] for a count; exact below 2^53. *)
Definition float_of_nat (n : nat) : float :=
  PrimFloat.of_uint63 (Uint63.of_Z (Z.of_nat n)).

(** [bool(v)] *)
Definition truthy (v : pyval) : bool :=
  match v with
  | PNone => false
  | PBool b => b
  | PInt n => negb (n =? 0)
  | PFloat f => negb (PrimFloat.eqb f 0%float)
  | PStr s => negb (String.eqb s EmptyString)
  | PList l => match l with [] => false | _ => true end
  | PDict l => match l with [] => false | _ => true end
  end.

Definition int_of_bool (b : bool) : Z := if b then 1 else 0.

Fixpoint lookup (k : string) (items : list (string * pyval)) : option pyval :=
  match items with
  | [] => None
  | (k', v) :: r => if String.eqb k k' then Some v else lookup k r
  end.

Definition is_nan (v : pyval) : bool :=
  match v with
  | PFloat f => negb (PrimFloat.eqb f f)
  | _ => false
  end.

(** [a == b].  [True] and [False] are the ints 1 and 0; ints and floats
    compare by value.  Items of lists and dicts are compared the way
    containers do it, identical objects being equal without a call of
    [==]: every NaN of a decoded line is the decoder's one NaN object, so
    inside a container NaN equals NaN. *)
Fixpoint eq (a b : pyval) {struct a} : bool :=
  let item_eq (x y : pyval) := is_nan x && is_nan y || eq x y in
  match a, b with
  | PNone, PNone => true
  | PBool x, PBool y => Bool.eqb x y
  | PBool x, PInt y => int_of_bool x =? y
  | PInt x, PBool y => x =? int_of_bool y
  | PBool x, PFloat y => float_eq_int y (int_of_bool x)
  | PFloat x, PBool y => float_eq_int x (int_of_bool y)
  | PInt x, PInt y => x =? y
  | PInt x, PFloat y => float_eq_int y x
  | PFloat x, PInt y => float_eq_int x y
  | PFloat x, PFloat y => PrimFloat.eqb x y
  | PStr x, PStr y => String.eqb x y
  | PList xs, PList ys =>
      (fix items_eq (xs ys : list pyval) {struct xs} : bool :=
         match xs, ys with
         | [], [] => true
         | x :: xs', y :: ys' => item_eq x y && items_eq xs' ys'
         | _, _ => false
         end) xs ys
  | PDict xs, PDict ys =>
      (List.length xs =? List.length ys)%nat
      && (fix all_in (xs : list (string * pyval)) {struct xs} : bool :=
            match xs with
            | [] => true
            | (k, x) :: xs' =>
                match lookup k ys with
                | Some y => item_eq x y && all_in xs'
                | None => false
                end
            end) xs
  | _, _ => false
  end.

(** [a != b] *)
Definition ne (a b : pyval) : bool := negb (eq a b).

(** [d.get(key, default)]; only a dict has the method. *)
Definition get (d : pyval) (key : string) (default : pyval) : res pyval :=
  match d with
  | PDict items =>
      match lookup key items with
      | Some v => Ok v
      | None => Ok default
      end
  | _ => Raise AttributeError
  end.

(** [needle in v] for a string [needle]: substring of a string, item of
    a list, key of a dict; the other values are not containers. *)
Definition contains (needle : string) (v : pyval) : res bool :=
  match v with
  | PStr s => Ok (PyStr.contains needle s)
  | PList l => Ok (existsb (fun x => eq x (PStr needle)) l)
  | PDict l =>
      Ok (match lookup needle l with Some _ => true | None => false end)
  | _ => Raise TypeError
  end.

End Py.

(** ** Configuration, state and the monad of the watcher *)

(** The environment variables read at import.  [WINDOW_SIZE] is a [nat]:
    a negative value makes [deque(maxlen=...)] fail at import. *)
Record config : Type := {
  SLACK_WEBHOOK_URL : string;
  ERROR_RATE_THRESHOLD : float;
  WINDOW_SIZE : nat;
  ALERT_COOLDOWN_SEC : Z;
  LOG_FILE : string;
  MAINTENANCE_MODE : bool
}.

Definition default_config : config := {|
  SLACK_WEBHOOK_URL := "";
  ERROR_RATE_THRESHOLD := 2%float;
  WINDOW_SIZE := 200;
  ALERT_COOLDOWN_SEC := 300;
  LOG_FILE := "/var/log/nginx/access.log";
  MAINTENANCE_MODE := false
|}.

(** The dict appended to [request_window]. *)
Record request_info : Type := {
  ri_pool : pyval;
  ri_status : pyval;
  ri_is_error : bool;
  ri_time : pyval
}.

(** The text of an alert, by the values its f-string interpolates. *)
Inductive message : Type :=
| FailoverDetected (previous_pool current_pool : pyval)
| HighErrorRate (error_rate : float) (error_count total_count : nat)
    (current_pool : pyval).

(** The attachment posted to the webhook (title and footer are constant). *)
Record payload : Type := {
  color : string;
  text : message;
  ts : Z
}.

(** What [requests.post] does: a response with a status code, or an
    exception (timeout, connection error). *)
Inductive response : Type :=
| StatusCode (code : Z)
| PostRaises.

(** The module-level variables, and a record of the calls made so far:
    [ticks] counts the calls of [time.time], [alerts] lists the calls of
    [send_slack_alert] and [posts] the calls of [requests.post], oldest
    first. *)
Record machine : Type := {
  last_pool : pyval;
  request_window : list request_info;
  last_failover_alert : float;
  last_error_rate_alert : float;
  ticks : nat;
  alerts : list (string * message);
  posts : list payload
}.

Definition initial : machine := {|
  last_pool := PNone;
  request_window := [];
  last_failover_alert := 0%float;
  last_error_rate_alert := 0%float;
  ticks := 0;
  alerts := [];
  posts := []
|}.

Definition set_last_pool (v : pyval) (m : machine) : machine :=
  {| last_pool := v; request_window := request_window m;
     last_failover_alert := last_failover_alert m;
     last_error_rate_alert := last_error_rate_alert m;
     ticks := ticks m; alerts := alerts m; posts := posts m |}.

Definition set_request_window (w : list request_info) (m : machine) : machine :=
  {| last_pool := last_pool m; request_window := w;
     last_failover_alert := last_failover_alert m;
     last_error_rate_alert := last_error_rate_alert m;
     ticks := ticks m; alerts := alerts m; posts := posts m |}.

Definition set_last_failover_alert (t : float) (m : machine) : machine :=
  {| last_pool := last_pool m; request_window := request_window m;
     last_failover_alert := t;
     last_error_rate_alert := last_error_rate_alert m;
     ticks := ticks m; alerts := alerts m; posts := posts m |}.

Definition set_last_error_rate_alert (t : float) (m : machine) : machine :=
  {| last_pool := last_pool m; request_window := request_window m;
     last_failover_alert := last_failover_alert m;
     last_error_rate_alert := t;
     ticks := ticks m; alerts := alerts m; posts := posts m |}.

Definition tick (m : machine) : machine :=
  {| last_pool := last_pool m; request_window := request_window m;
     last_failover_alert := last_failover_alert m;
     last_error_rate_alert := last_error_rate_alert m;
     ticks := S (ticks m); alerts := alerts m; posts := posts m |}.

Definition log_alert (a : string * message) (m : machine) : machine :=
  {| last_pool := last_pool m; request_window := request_window m;
     last_failover_alert := last_failover_alert m;
     last_error_rate_alert := last_error_rate_alert m;
     ticks := ticks m; alerts := alerts m ++ [a]; posts := posts m |}.

Definition log_post (p : payload) (m : machine) : machine :=
  {| last_pool := last_pool m; request_window := request_window m;
     last_failover_alert := last_failover_alert m;
     last_error_rate_alert := last_error_rate_alert m;
     ticks := ticks m; alerts := alerts m; posts := posts m ++ [p] |}.

(** A computation runs on a machine and returns or raises; what it did to
    the machine before raising stays done. *)
Definition M (A : Type) : Type := machine -> res A * machine.

Definition ret {A : Type} (a : A) : M A := fun m => (Ok a, m).

Definition raise {A : Type} (e : exn) : M A := fun m => (Raise e, m).

Definition bind {A B : Type} (c : M A) (k : A -> M B) : M B :=
  fun m =>
    match c m with
    | (Ok a, m') => k a m'
    | (Raise e, m') => (Raise e, m')
    end.

Definition lift {A : Type} (r : res A) : M A := fun m => (r, m).

Definition modify (f : machine -> machine) : M unit := fun m => (Ok tt, f m).

Definition read {A : Type} (f : machine -> A) : M A := fun m => (Ok (f m), m).

Declare Scope watcher_scope.
Delimit Scope watcher_scope with watcher.
Notation "x <- c ;; k" := (bind c (fun x => k))
  (at level 61, c at next level, right associativity) : watcher_scope.
Notation "c ;; k" := (bind c (fun _ => k))
  (at level 61, right associativity) : watcher_scope.
Local Open Scope watcher_scope.

(** [for x in l: body(x)] *)
Fixpoint for_each {A : Type} (body : A -> M unit) (l : list A) : M unit :=
  match l with
  | [] => ret tt
  | x :: r => body x ;; for_each body r
  end.

(** [try: c  except Exception: (print, sleep)] *)
Definition try_except (c : M unit) : M unit :=
  fun m => (Ok tt, snd (c m)).

(** Results without state, for the pure parts of a loop body. *)
Definition res_bind {A B : Type} (r : res A) (k : A -> res B) : res B :=
  match r with
  | Ok a => k a
  | Raise e => Raise e
  end.

Fixpoint res_map {A B : Type} (f : A -> res B) (l : list A) : res (list B) :=
  match l with
  | [] => Ok []
  | x :: r =>
      res_bind (f x) (fun y => res_bind (res_map f r) (fun ys => Ok (y :: ys)))
  end.

(** ** The watcher *)

Section Watcher.

Variable cfg : config.

(** [json.loads] *)
Variable json_loads : string -> loads_result.

(** [time.time()] at its n-th call. *)
Variable clock : nat -> float.

(** The outcome of the n-th call of [requests.post]. *)
Variable network : nat -> response.

(** The encoding that [open(LOG_FILE, 'r')] reads the file with. *)
Variable encoding : codec.

Definition time_time : M float :=
  fun m => (Ok (clock (ticks m)), tick m).

Definition requests_post (p : payload) : M response :=
  fun m => (Ok (network (List.length (posts m))), log_post p m).

(** [colors.get(alert_type, "#808080")] *)
Definition color_of (alert_type : string) : string :=
  if String.eqb alert_type "failover" then "#FFA500"
  else if String.eqb alert_type "error" then "#FF0000"
  else if String.eqb alert_type "recovery" then "#00FF00"
  else if String.eqb alert_type "info" then "#0000FF"
  else "#808080".

(** lines 29-67 *)
Definition send_slack_alert (msg : message) (alert_type : string) : M bool :=
  modify (log_alert (alert_type, msg)) ;;
  if String.eqb (SLACK_WEBHOOK_URL cfg) "" then ret false
  else if MAINTENANCE_MODE cfg && String.eqb alert_type "failover" then ret false
  else
    now <- time_time ;;
    r <- requests_post {| color := color_of alert_type;
                          text := msg;
                          ts := Py.int_of_float now |} ;;
    match r with
    | StatusCode code => ret (code =? 200)
    | PostRaises => ret false
    end.

(** [now - last > ALERT_COOLDOWN_SEC] *)
Definition cooldown_elapsed (now last : float) : bool :=
  Py.float_gt_int (PrimFloat.sub now last) (ALERT_COOLDOWN_SEC cfg).

(** lines 69-93 *)
Definition check_failover (current_pool : pyval) : M unit :=
  lp <- read last_pool ;;
  match lp with
  | PNone => modify (set_last_pool current_pool)
  | _ =>
      if Py.ne current_pool lp then
        now <- time_time ;;
        last <- read last_failover_alert ;;
        (if cooldown_elapsed now last then
           send_slack_alert (FailoverDetected lp current_pool) "failover" ;;
           modify (set_last_failover_alert now)
         else ret tt) ;;
        modify (set_last_pool current_pool)
      else ret tt
  end.

(** [sum(1 for req in request_window if req.get('is_error', False))] *)
Definition count_errors (w : list request_info) : nat :=
  List.length (filter ri_is_error w).

(** [(error_count / total_count) * 100] *)
Definition error_rate_of (error_count total_count : nat) : float :=
  PrimFloat.mul
    (PrimFloat.div (Py.float_of_nat error_count) (Py.float_of_nat total_count))
    100%float.

(** [request_window[-1]] *)
Definition window_last (w : list request_info) : res request_info :=
  match rev w with
  | r :: _ => Ok r
  | [] => Raise IndexError
  end.

(** lines 95-122 *)
Definition check_error_rate : M unit :=
  w <- read request_window ;;
  if (List.length w <? 10)%nat then ret tt
  else
    let error_count := count_errors w in
    let total_count := List.length w in
    let error_rate := error_rate_of error_count total_count in
    if PrimFloat.ltb (ERROR_RATE_THRESHOLD cfg) error_rate then
      now <- time_time ;;
      last <- read last_error_rate_alert ;;
      if cooldown_elapsed now last then
        newest <- lift (window_last w) ;;
        send_slack_alert
          (HighErrorRate error_rate error_count total_count (ri_pool newest))
          "error" ;;
        modify (set_last_error_rate_alert now)
      else ret tt
    else ret tt.

(** lines 124-130: [JSONDecodeError] is caught and gives [None]; any
    other exception of [json.loads] goes on to the caller. *)
Definition parse_log_line (line : string) : res pyval :=
  match json_loads (PyStr.strip line) with
  | Loaded log => Ok log
  | JSONDecodeError => Ok PNone
  | LoadsRaises e => Raise e
  end.

(** [request_window.append(request_info)] on a deque with
    [maxlen=WINDOW_SIZE]: the oldest record leaves when the deque is
    over its length. *)
Definition window_append (r : request_info) (w : list request_info)
  : list request_info :=
  let w' := w ++ [r] in
  if (WINDOW_SIZE cfg <? List.length w')%nat then tl w' else w'.

(** ['nginx-health' in request or 'healthz' in request] *)
Definition is_health_check (request : pyval) : res bool :=
  res_bind (Py.contains "nginx-health" request) (fun found =>
    if found then Ok true else Py.contains "healthz" request).

(** [sys.int_info.default_max_str_digits]: [int] refuses a string of
    more decimal digits. *)
Definition max_str_digits : nat := 4300.

(** [int(s)] for a string without sign, blanks or underscores, as are
    the strings that pass [isdigit]. *)
Definition int_of_str (s : string) : res Z :=
  match s with
  | EmptyString => Raise ValueError
  | _ =>
      if PyStr.all_chars PyStr.isdecimal_char s
         && (String.length s <=? max_str_digits)%nat
      then Ok (PyStr.decimal_value 0 s)
      else Raise ValueError
  end.

(** lines 188-192 *)
Definition compute_is_error (upstream_status : pyval) : res bool :=
  if Py.truthy upstream_status then
    match upstream_status with
    | PStr us =>
        res_bind
          (res_map (fun s => int_of_str (PyStr.strip s))
             (filter (fun s => PyStr.isdigit (PyStr.strip s))
                (PyStr.split "," us)))
          (fun statuses => Ok (existsb (fun s => 500 <=? s) statuses))
    | _ => Raise AttributeError
    end
  else Ok false.

(** lines 177-199: the fields of a decoded line, as the dict that goes
    into the window; [None] for a health check, which the loop skips. *)
Definition extract_fields (log : pyval) : res (option request_info) :=
  res_bind (Py.get log "pool" (PStr "")) (fun pool =>
  res_bind (Py.get log "status" (PInt 0)) (fun status =>
  res_bind (Py.get log "upstream_status" (PStr "")) (fun upstream_status =>
  res_bind (Py.get log "request" (PStr "")) (fun request =>
  res_bind (is_health_check request) (fun health =>
  if health then Ok None
  else
    res_bind (compute_is_error upstream_status) (fun is_error =>
    res_bind (Py.get log "time" (PStr "")) (fun time =>
    Ok (Some {| ri_pool := pool; ri_status := status;
                ri_is_error := is_error; ri_time := time |})))))))).

(** lines 200-207: the record enters the window and both detectors run. *)
Definition track_request (info : request_info) : M unit :=
  modify (fun m =>
    set_request_window (window_append info (request_window m)) m) ;;
  (if Py.truthy (ri_pool info) then check_failover (ri_pool info)
   else ret tt) ;;
  check_error_rate.

(** lines 177-207: the body of the second loop, from the decoded line on. *)
Definition process_log (log : pyval) : M unit :=
  fields <- lift (extract_fields log) ;;
  match fields with
  | None => ret tt
  | Some info => track_request info
  end.

(** lines 172-207 *)
Definition process_line (line : string) : M unit :=
  log <- lift (parse_log_line line) ;;
  if negb (Py.truthy log) then ret tt else process_log log.

(** lines 168-171: the first loop parses and goes on. *)
Definition first_loop_body (line : string) : M unit :=
  log <- lift (parse_log_line line) ;;
  if negb (Py.truthy log) then ret tt else ret tt.

(** lines 167-207: both loops over the lines read. *)
Definition process_lines (lines : list string) : M unit :=
  for_each first_loop_body lines ;;
  for_each process_line lines.

(** [f.seek(last_position); lines = f.readlines(); f.tell()] on a file
    with the given content: the bytes from the position on are decoded,
    which can raise, and split into lines.  A seek behind the end is
    allowed: nothing is read and the position stays. *)
Definition read_new_lines (content : string) (last_position : nat)
  : res (list string * nat) :=
  match decode encoding (PyStr.drop last_position content) with
  | Some text =>
      Ok (PyStr.splitlines_keepends (PyStr.translate_newlines text),
          Nat.max last_position (String.length content))
  | None => Raise UnicodeDecodeError
  end.

(** lines 158-214: one turn of the [while True] loop.  The file has
    [content], or cannot be opened ([None]).  The result is the new
    [last_position]: it is assigned when the lines are read, and an
    exception before that leaves it as it was. *)
Definition poll (file : option string) (last_position : nat) : M nat :=
  match file with
  | None => ret last_position
  | Some content =>
      match read_new_lines content last_position with
      | Ok (lines, position) =>
          try_except (process_lines lines) ;;
          ret position
      | Raise _ => ret last_position
      end
  end.

Fixpoint poll_all (files : list (option string)) (last_position : nat) : M nat :=
  match files with
  | [] => ret last_position
  | file :: later => position <- poll file last_position ;; poll_all later position
  end.

(** lines 148-156: the existing lines are read and dropped, and the
    position of the tail loop is set. *)
Definition skip_existing (file : option string) : nat :=
  let _ := match file with
           | Some content => read_new_lines content 0
           | None => Raise OSError
           end in
  0%nat.

(** lines 132-214, for the states of the file that the loop meets:
    [at_start] when the existing lines are skipped, then one per turn. *)
Definition tail_log_file (at_start : option string)
    (files : list (option string)) : M nat :=
  poll_all files (skip_existing at_start).

End Watcher.

(** ** Reading the configuration *)

Module Env.

(** [str.lower] on one character, for code points below 256: the letters
    A to Z, and the capital letters of Latin-1 (U+00C0 to U+00DE without
    the multiplication sign). *)
Definition lower_char (c : ascii) : ascii :=
  let n := nat_of_ascii c in
  if ((65 <=? n) && (n <=? 90)
      || (192 <=? n) && (n <=? 222) && negb (n =? 215))%nat
  then ascii_of_nat (n + 32)
  else c.

(** [s.lower()] *)
Fixpoint lower (s : string) : string :=
  match s with
  | EmptyString => EmptyString
  | String c r => String (lower_char c) (lower r)
  end.

(** line 21: [os.getenv('MAINTENANCE_MODE', 'false').lower() == 'true'],
    for the value of the variable, [None] when it is not set. *)
Definition maintenance_mode (value : option string) : bool :=
  String.eqb
    (lower match value with
           | Some s => s
           | None => "false"
           end)
    "true".

End Env.

(** ** Views of the configuration and the state used in the statements *)

(** The two kinds of alert. *)
Inductive kind : Type :=
| Failover
| ErrorRate.

(** The [alert_type] the detector of a kind passes to [send_slack_alert]. *)
Definition alert_type (k : kind) : string :=
  match k with
  | Failover => "failover"
  | ErrorRate => "error"
  end.

Definition other (k : kind) : kind :=
  match k with
  | Failover => ErrorRate
  | ErrorRate => Failover
  end.

(** The variable that holds the time of the last alert of a kind. *)
Definition last_alert (k : kind) (m : machine) : float :=
  match k with
  | Failover => last_failover_alert m
  | ErrorRate => last_error_rate_alert m
  end.

(** What a detector can find: another pool than the tracked one, or an
    error rate over the threshold. *)
Inductive detection : Type :=
| PoolChange (current_pool : pyval)
| ErrorBreach.

Definition kind_of (d : detection) : kind :=
  match d with
  | PoolChange _ => Failover
  | ErrorBreach => ErrorRate
  end.

(** The condition under which a detector reaches its cooldown test. *)
Definition detects (cfg : config) (d : detection) (m : machine) : Prop :=
  match d with
  | PoolChange p => last_pool m <> PNone /\ Py.ne p (last_pool m) = true
  | ErrorBreach =>
      let w := request_window m in
      (10 <= List.length w)%nat
      /\ PrimFloat.ltb (ERROR_RATE_THRESHOLD cfg)
           (error_rate_of (count_errors w) (List.length w)) = true
  end.

Definition detector (cfg : config) (clock : nat -> float)
    (network : nat -> response) (d : detection) : M unit :=
  match d with
  | PoolChange p => check_failover cfg clock network p
  | ErrorBreach => check_error_rate cfg clock network
  end.

(** Between [m] and [m'] one alert of kind [k] went to [send_slack_alert]. *)
Definition dispatched (k : kind) (m m' : machine) : Prop :=
  exists msg, alerts m' = alerts m ++ [(alert_type k, msg)].

(** The configuration with [MAINTENANCE_MODE] set to [b]. *)
Definition with_maintenance (b : bool) (cfg : config) : config := {|
  SLACK_WEBHOOK_URL := SLACK_WEBHOOK_URL cfg;
  ERROR_RATE_THRESHOLD := ERROR_RATE_THRESHOLD cfg;
  WINDOW_SIZE := WINDOW_SIZE cfg;
  ALERT_COOLDOWN_SEC := ALERT_COOLDOWN_SEC cfg;
  LOG_FILE := LOG_FILE cfg;
  MAINTENANCE_MODE := b
|}.

(** ** The specification of [is_error] *)

Module Spec.

Definition digit (c : ascii) : Z := Z.of_nat (nat_of_ascii c) - 48.

(** Follows the specification: decimal notation.  A non-empty string of
    decimal digits denotes the integer that its digits spell. *)
Inductive denotes : string -> Z -> Prop :=
| denotes_digit (c : ascii) :
    PyStr.isdecimal_char c = true ->
    denotes (String c EmptyString) (digit c)
| denotes_more (s : string) (n : Z) (c : ascii) :
    denotes s n ->
    PyStr.isdecimal_char c = true ->
    denotes (s ++ String c EmptyString) (10 * n + digit c).

(** Follows the specification: an entry parses as the integer [n] when it
    is a numeral for [n] with blanks before and after it, and nothing
    else. *)
Definition parses_as (entry : string) (n : Z) : Prop :=
  exists before numeral after,
    entry = (before ++ numeral ++ after)%string
    /\ PyStr.all_chars PyStr.isspace before = true
    /\ PyStr.all_chars PyStr.isspace after = true
    /\ denotes numeral n.

(** Follows the specification: the entries of the field, split on commas. *)
Definition entries (upstream_status : pyval) : list string :=
  match upstream_status with
  | PStr s => PyStr.split "," s
  | _ => []
  end.

(** Follows the specification: at least one entry parses as an integer
    that is 500 or more. *)
Definition is_error (upstream_status : pyval) : Prop :=
  exists entry n,
    In entry (entries upstream_status) /\ parses_as entry n /\ 500 <= n.

(** Follows the specification: the number of records of the window that
    are errors. *)
Fixpoint error_count (w : list request_info) : nat :=
  match w with
  | [] => 0%nat
  | r :: older => ((if ri_is_error r then 1 else 0) + error_count older)%nat
  end.

(** Follows the specification: the percentage
    [error_count / total_count * 100], in binary64 arithmetic. *)
Definition percentage (errors total : nat) : float :=
  let number (n : nat) := PrimFloat.of_uint63 (Uint63.of_Z (Z.of_nat n)) in
  (number errors / number total * 100)%float.

(** The rational number that a finite float is. *)
Definition value (f : float) : option Q :=
  match Prim2SF f with
  | S754_zero _ => Some 0%Q
  | S754_finite s m e =>
      let mantissa := if s then Z.neg m else Z.pos m in
      Some (if 0 <=? e then inject_Z (mantissa * 2 ^ e)
            else Qmake mantissa (Z.to_pos (2 ^ (- e))))
  | _ => None
  end.

(** Follows the specification: [elapsed > ALERT_COOLDOWN_SEC], an elapsed
    time in seconds against a whole number of seconds.  An infinite
    elapsed time is over every cooldown, a NaN over none. *)
Definition over (elapsed : float) (cooldown : Z) : Prop :=
  match value elapsed with
  | Some seconds => (inject_Z cooldown < seconds)%Q
  | None => Prim2SF elapsed = S754_infinity false
  end.

End Spec.

(** ** The fields read from a decoded line *)

Definition fields : list string :=
  ["pool"; "status"; "upstream_status"; "request"; "time"].

(** The default that [log.get] is given for a field. *)
Definition default_of (field : string) : pyval :=
  if String.eqb field "status" then PInt 0 else PStr "".

(** The record of a line that has none of the fields. *)
Definition default_record : request_info :=
  {| ri_pool := PStr ""; ri_status := PInt 0;
     ri_is_error := false; ri_time := PStr "" |}.

(** ** Alerts by kind *)

(** The alerts that the error-rate detector sends. *)
Definition is_error_alert (a : string * message) : bool :=
  String.eqb (fst a) "error".

(** The alerts that the failover detector sends. *)
Definition is_failover_alert (a : string * message) : bool :=
  String.eqb (fst a) "failover".

(** ** Sample inputs *)

Module Sample.

Definition dq : string := String (ascii_of_nat 34) EmptyString.

(** A JSON string literal. *)
Definition q (s : string) : string := dq ++ s ++ dq.

Definition nl : string := String (ascii_of_nat 10) EmptyString.

(** [{"pool":"blue","upstream_status":"200","request":"GET / HTTP/1.1"}] *)
Definition blue_line : string :=
  "{" ++ q "pool" ++ ":" ++ q "blue" ++ ","
      ++ q "upstream_status" ++ ":" ++ q "200" ++ ","
      ++ q "request" ++ ":" ++ q "GET / HTTP/1.1" ++ "}".

(** [{"pool":"green","upstream_status":"502, 200","request":"GET / HTTP/1.1"}] *)
Definition green_line : string :=
  "{" ++ q "pool" ++ ":" ++ q "green" ++ ","
      ++ q "upstream_status" ++ ":" ++ q "502, 200" ++ ","
      ++ q "request" ++ ":" ++ q "GET / HTTP/1.1" ++ "}".

(** [{"pool":"green","upstream_status":"502","request":"GET /healthz HTTP/1.1"}] *)
Definition health_line : string :=
  "{" ++ q "pool" ++ ":" ++ q "green" ++ ","
      ++ q "upstream_status" ++ ":" ++ q "502" ++ ","
      ++ q "request" ++ ":" ++ q "GET /healthz HTTP/1.1" ++ "}".

(** [{"msg":"hello"}]: an object without any of the fields read. *)
Definition bare_line : string :=
  "{" ++ q "msg" ++ ":" ++ q "hello" ++ "}".

Definition blue_log : pyval :=
  PDict [("pool", PStr "blue"); ("upstream_status", PStr "200");
         ("request", PStr "GET / HTTP/1.1")].

Definition green_log : pyval :=
  PDict [("pool", PStr "green"); ("upstream_status", PStr "502, 200");
         ("request", PStr "GET / HTTP/1.1")].

Definition health_log : pyval :=
  PDict [("pool", PStr "green"); ("upstream_status", PStr "502");
         ("request", PStr "GET /healthz HTTP/1.1")].

Definition bare_log : pyval := PDict [("msg", PStr "hello")].

(** [{"pool":"blue","upstream_status":"502,²","request":"GET / HTTP/1.1"}],
    the second status being the superscript two, U+00B2. *)
Definition superscript_status : string :=
  "502," ++ String (ascii_of_nat 178) EmptyString.

Definition superscript_line : string :=
  "{" ++ q "pool" ++ ":" ++ q "blue" ++ ","
      ++ q "upstream_status" ++ ":" ++ q superscript_status ++ ","
      ++ q "request" ++ ":" ++ q "GET / HTTP/1.1" ++ "}".

Definition superscript_log : pyval :=
  PDict [("pool", PStr "blue"); ("upstream_status", PStr superscript_status);
         ("request", PStr "GET / HTTP/1.1")].

Fixpoint replicate (n : nat) (c : ascii) : string :=
  match n with
  | O => EmptyString
  | S k => String c (replicate k c)
  end.

(** A line that is one integer literal of 4301 digits. *)
Definition long_number_line : string := replicate 4301 "1".

(** What [json.loads] returns on the sample lines.  On the literal of 4301
    digits it raises [ValueError]; on [not json], on the empty string and
    on every text that is not in the table it raises [JSONDecodeError]. *)
Definition decoded : list (string * pyval) :=
  [ (blue_line, blue_log);
    (green_line, green_log);
    (health_line, health_log);
    (bare_line, bare_log);
    (superscript_line, superscript_log);
    ("{}", PDict []);
    ("[1]", PList [PInt 1]);
    ("null", PNone) ].

Definition json_loads (s : string) : loads_result :=
  if String.eqb s long_number_line then LoadsRaises ValueError
  else match Py.lookup s decoded with
       | Some v => Loaded v
       | None => JSONDecodeError
       end.

(** The codec [ascii]: bytes below 128 are their characters, any other
    byte raises.  UTF-8 decodes such bytes to the same text. *)
Definition ascii_decode (bytes : string) : option string :=
  if PyStr.all_chars PyStr.isascii bytes then Some bytes else None.

Definition ascii : codec :=
  {| decode := ascii_decode; decode_empty := eq_refl |}.

(** A clock that starts on 2023-11-14 22:13:20 UTC and advances by a
    second at each reading. *)
Definition clock (n : nat) : float :=
  PrimFloat.add 1700000000%float (Py.float_of_nat n).

(** A webhook that answers 200, and one that is down. *)
Definition network_ok (n : nat) : response := StatusCode 200.
Definition network_down (n : nat) : response := PostRaises.

(** The default configuration with a webhook. *)
Definition with_webhook (maintenance : bool) : config := {|
  SLACK_WEBHOOK_URL := "https://hooks.example/T0";
  ERROR_RATE_THRESHOLD := ERROR_RATE_THRESHOLD default_config;
  WINDOW_SIZE := WINDOW_SIZE default_config;
  ALERT_COOLDOWN_SEC := ALERT_COOLDOWN_SEC default_config;
  LOG_FILE := LOG_FILE default_config;
  MAINTENANCE_MODE := maintenance
|}.

Definition ok_record (pool : string) : request_info :=
  {| ri_pool := PStr pool; ri_status := PInt 200;
     ri_is_error := false; ri_time := PStr "" |}.

Definition error_record (pool : string) : request_info :=
  {| ri_pool := PStr pool; ri_status := PInt 502;
     ri_is_error := true; ri_time := PStr "" |}.

(** A machine that tracks [pool] and holds the given window. *)
Definition tracking (pool : string) (w : list request_info) : machine :=
  set_request_window w (set_last_pool (PStr pool) initial).

End Sample.

(** ** Loops and sequencing *)

Lemma bind_ok {A B : Type} (c : M A) (k : A -> M B) (m m' : machine) (a : A) :
  c m = (Ok a, m') -> bind c k m = k a m'.
Proof. intros H. unfold bind. rewrite H. reflexivity. Qed.

Lemma bind_read {A B : Type} (f : machine -> A) (k : A -> M B) (m : machine) :
  bind (read f) k m = k (f m) m.
Proof. reflexivity. Qed.

Lemma bind_modify {B : Type} (f : machine -> machine) (k : unit -> M B)
    (m : machine) :
  bind (modify f) k m = k tt (f m).
Proof. reflexivity. Qed.

Lemma bind_lift_ok {A B : Type} (a : A) (k : A -> M B) (m : machine) :
  bind (lift (Ok a)) k m = k a m.
Proof. reflexivity. Qed.

Lemma bind_time_time {B : Type} (clock : nat -> float) (k : float -> M B)
    (m : machine) :
  bind (time_time clock) k m = k (clock (ticks m)) (tick m).
Proof. reflexivity. Qed.

Lemma for_each_app {A : Type} (body : A -> M unit) (l1 l2 : list A) (m : machine) :
  for_each body (l1 ++ l2) m = bind (for_each body l1) (fun _ => for_each body l2) m.
Proof.
  revert m. induction l1 as [|x l1 IH]; intros m; simpl.
  - reflexivity.
  - unfold bind. destruct (body x m) as [[[]|e] m1].
    + rewrite IH. reflexivity.
    + reflexivity.
Qed.

Lemma for_each_one {A : Type} (body : A -> M unit) (x : A) (m : machine) :
  for_each body [x] m = body x m.
Proof.
  simpl. unfold bind, ret. destruct (body x m) as [[[]|e] m1]; reflexivity.
Qed.

(** A loop whose body always returns, returns. *)
Lemma for_each_returns {A : Type} (body : A -> M unit) (l : list A) (m : machine) :
  (forall x m0, fst (body x m0) = Ok tt) ->
  for_each body l m = (Ok tt, snd (for_each body l m)).
Proof.
  intros Hbody. revert m. induction l as [|x l IH]; intros m; simpl.
  - reflexivity.
  - unfold bind. specialize (Hbody x m).
    destruct (body x m) as [r m1]. simpl in Hbody. subst r. apply IH.
Qed.

Lemma for_each_snoc {A : Type} (body : A -> M unit) (l : list A) (x : A) (m : machine) :
  (forall y m0, fst (body y m0) = Ok tt) ->
  for_each body (l ++ [x]) m = body x (snd (for_each body l m)).
Proof.
  intros Hbody. rewrite for_each_app.
  rewrite (bind_ok _ _ _ _ _ (for_each_returns body l m Hbody)).
  apply for_each_one.
Qed.

(** ** The failover detector *)

Lemma truthy_not_None (p : pyval) : Py.truthy p = true -> p <> PNone.
Proof. intros H E. subst p. discriminate H. Qed.

Section FailoverDetector.

Variable cfg : config.
Variable clock : nat -> float.
Variable network : nat -> response.

Local Abbreviation check := (check_failover cfg clock network).

(** [send_slack_alert] returns, whatever the webhook does; it touches
    neither the window nor the detectors' variables. *)
Lemma send_slack_alert_effect (msg : message) (kind : string) (m : machine) :
  exists delivered m',
    send_slack_alert cfg clock network msg kind m = (Ok delivered, m')
    /\ last_pool m' = last_pool m
    /\ request_window m' = request_window m
    /\ last_failover_alert m' = last_failover_alert m
    /\ last_error_rate_alert m' = last_error_rate_alert m
    /\ alerts m' = alerts m ++ [(kind, msg)].
Proof.
  unfold send_slack_alert, bind, modify, ret, time_time, requests_post.
  destruct (String.eqb (SLACK_WEBHOOK_URL cfg) "").
  - eexists _, _. split; [reflexivity|]. simpl. repeat split; reflexivity.
  - destruct (MAINTENANCE_MODE cfg && String.eqb kind "failover").
    + eexists _, _. split; [reflexivity|]. simpl. repeat split; reflexivity.
    + simpl. destruct (network _); eexists _, _; (split; [reflexivity|]);
        simpl; repeat split; reflexivity.
Qed.

Lemma check_failover_baseline (p : pyval) (m : machine) :
  last_pool m = PNone -> check p m = (Ok tt, set_last_pool p m).
Proof.
  intros H. unfold check, check_failover, bind, read, modify. rewrite H. reflexivity.
Qed.

Lemma check_failover_same (p : pyval) (m : machine) :
  last_pool m <> PNone -> Py.ne p (last_pool m) = false -> check p m = (Ok tt, m).
Proof.
  intros Hn Heq. unfold check, check_failover, bind, read, modify.
  destruct (last_pool m) eqn:E; try congruence; rewrite Heq; reflexivity.
Qed.

Lemma check_failover_change (p : pyval) (m : machine) :
  last_pool m <> PNone -> Py.ne p (last_pool m) = true ->
  exists m',
    check p m = (Ok tt, m')
    /\ last_pool m' = p
    /\ request_window m' = request_window m
    /\ last_error_rate_alert m' = last_error_rate_alert m
    /\ (if cooldown_elapsed cfg (clock (ticks m)) (last_failover_alert m)
        then alerts m' = alerts m ++ [("failover", FailoverDetected (last_pool m) p)]
             /\ last_failover_alert m' = clock (ticks m)
        else alerts m' = alerts m
             /\ posts m' = posts m
             /\ last_failover_alert m' = last_failover_alert m).
Proof.
  intros Hn Hne.
  assert (Hbody : exists m',
    (now <- time_time clock ;;
     last <- read last_failover_alert ;;
     (if cooldown_elapsed cfg now last
      then send_slack_alert cfg clock network
             (FailoverDetected (last_pool m) p) "failover" ;;
           modify (set_last_failover_alert now)
      else ret tt) ;;
     modify (set_last_pool p)) m = (Ok tt, m')
    /\ last_pool m' = p
    /\ request_window m' = request_window m
    /\ last_error_rate_alert m' = last_error_rate_alert m
    /\ (if cooldown_elapsed cfg (clock (ticks m)) (last_failover_alert m)
        then alerts m' = alerts m ++ [("failover", FailoverDetected (last_pool m) p)]
             /\ last_failover_alert m' = clock (ticks m)
        else alerts m' = alerts m
             /\ posts m' = posts m
             /\ last_failover_alert m' = last_failover_alert m)).
  { unfold bind at 1. unfold time_time at 1. unfold bind at 1. unfold read at 1.
    simpl last_failover_alert.
    destruct (cooldown_elapsed cfg (clock (ticks m)) (last_failover_alert m)).
    - destruct (send_slack_alert_effect (FailoverDetected (last_pool m) p)
                  "failover" (tick m))
        as (d & m1 & Hs & H1 & H2 & H3 & H4 & H5).
      unfold bind. rewrite Hs. unfold modify. eexists. split; [reflexivity|].
      simpl. simpl in H2, H4, H5. repeat split; assumption.
    - unfold bind, ret, modify. eexists. split; [reflexivity|]. simpl.
      repeat split; reflexivity. }
  unfold check, check_failover. unfold bind at 1. unfold read at 1.
  destruct (last_pool m) eqn:E; try congruence; rewrite Hne; exact Hbody.
Qed.

(** The three ways through the detector. *)
Lemma check_failover_cases (p : pyval) (m : machine) :
  (last_pool m = PNone /\ check p m = (Ok tt, set_last_pool p m))
  \/ (last_pool m <> PNone /\ Py.ne p (last_pool m) = false
      /\ check p m = (Ok tt, m))
  \/ (last_pool m <> PNone /\ Py.ne p (last_pool m) = true).
Proof.
  destruct (last_pool m) eqn:E;
    [ left; split; [reflexivity|];
      apply check_failover_baseline; exact E | .. ];
    rewrite <- E; right;
    assert (Hn : last_pool m <> PNone) by (rewrite E; discriminate);
    (destruct (Py.ne p (last_pool m)) eqn:Hne;
     [ right; split; [exact Hn|reflexivity]
     | left; split; [exact Hn|]; split; [reflexivity|];
       apply check_failover_same; assumption ]).
Qed.

(** The detector always returns, and keeps tracking once it tracks. *)
Lemma check_failover_returns (p : pyval) (m : machine) :
  fst (check p m) = Ok tt.
Proof.
  destruct (check_failover_cases p m) as [[_ H]|[(_ & _ & H)|[Hn Hne]]].
  - rewrite H. reflexivity.
  - rewrite H. reflexivity.
  - destruct (check_failover_change p m Hn Hne) as (m' & H & _).
    rewrite H. reflexivity.
Qed.

Lemma check_failover_tracks (p : pyval) (m : machine) :
  Py.truthy p = true ->
  last_pool (snd (check p m)) <> PNone.
Proof.
  intros Hp.
  destruct (check_failover_cases p m) as [[_ H]|[(Hn & _ & H)|[Hn Hne]]].
  - rewrite H. simpl. apply truthy_not_None, Hp.
  - rewrite H. exact Hn.
  - destruct (check_failover_change p m Hn Hne) as (m' & H & Hl & _).
    rewrite H. simpl. rewrite Hl. apply truthy_not_None, Hp.
Qed.

Lemma feed_tracks (pools : list pyval) (m : machine) :
  Forall (fun p => Py.truthy p = true) pools ->
  last_pool m <> PNone ->
  last_pool (snd (for_each check pools m)) <> PNone.
Proof.
  revert m. induction pools as [|p pools IH]; intros m Hall Hm; simpl.
  - exact Hm.
  - inversion Hall as [|? ? Hp Hrest]; subst.
    unfold bind. pose proof (check_failover_returns p m) as Hr.
    pose proof (check_failover_tracks p m Hp) as Ht.
    destruct (check p m) as [r m1]. simpl in Hr, Ht. subst r.
    apply IH; assumption.
Qed.

(** What the failover detector leaves alone, and how much it sends. *)
Lemma check_failover_frame (p : pyval) (m : machine) :
  let m' := snd (check p m) in
  request_window m' = request_window m
  /\ (List.length (alerts m') <= List.length (alerts m) + 1)%nat.
Proof.
  destruct (check_failover_cases p m) as [[_ H]|[(_ & _ & H)|[Hn Hne]]].
  - rewrite H. simpl. split; [reflexivity|lia].
  - rewrite H. simpl. split; [reflexivity|lia].
  - destruct (check_failover_change p m Hn Hne)
      as (m' & H & _ & Hw & _ & Hcool).
    rewrite H. simpl. split; [exact Hw|].
    destruct (cooldown_elapsed cfg _ _); destruct Hcool as [Ha _]; rewrite Ha;
      rewrite ?length_app; simpl; lia.
Qed.

(** C1: fed the non-empty pools of a sequence of records, the detector
    records the first pool as [last_pool] and raises no alert for it;
    for every later record, when its pool differs from [last_pool] the
    new pool becomes [last_pool] whether the cooldown lets the failover
    alert through or not, and when it does not differ nothing changes. *)
Theorem failover_state_machine
    (first : pyval) (rest : list pyval) (m : machine) :
  last_pool m = PNone ->
  Forall (fun p => Py.truthy p = true) (first :: rest) ->
  let feed pools := for_each check pools m in
  feed [first] = (Ok tt, set_last_pool first m)
  /\ forall earlier p later, rest = earlier ++ p :: later ->
       let before := snd (feed (first :: earlier)) in
       let after := snd (feed (first :: earlier ++ [p])) in
       fst (feed (first :: earlier ++ [p])) = Ok tt
       /\ last_pool before <> PNone
       /\ (Py.ne p (last_pool before) = true ->
             last_pool after = p
             /\ alerts after =
                  alerts before ++
                  (if cooldown_elapsed cfg (clock (ticks before))
                        (last_failover_alert before)
                   then [("failover", FailoverDetected (last_pool before) p)]
                   else []))
       /\ (Py.ne p (last_pool before) = false -> after = before).
Proof.
  intros Hnone Hall feed. inversion Hall as [|? ? Hfirst Hrest]; subst.
  split.
  - unfold feed. rewrite for_each_one. apply check_failover_baseline, Hnone.
  - intros earlier p later ->.
    assert (Hearlier : Forall (fun p => Py.truthy p = true) (first :: earlier)).
    { constructor; [exact Hfirst|]. apply Forall_app in Hrest. apply Hrest. }
    assert (Hbefore : last_pool (snd (feed (first :: earlier))) <> PNone).
    { unfold feed. simpl for_each. unfold bind.
      rewrite check_failover_baseline by exact Hnone.
      apply feed_tracks.
      - inversion Hearlier; assumption.
      - simpl. apply truthy_not_None, Hfirst. }
    assert (Hstep : feed (first :: earlier ++ [p])
                    = check p (snd (feed (first :: earlier)))).
    { unfold feed. change (first :: earlier ++ [p]) with ((first :: earlier) ++ [p]).
      apply for_each_snoc. intros; apply check_failover_returns. }
    cbv zeta. rewrite Hstep.
    split; [apply check_failover_returns|].
    split; [exact Hbefore|].
    split.
    + intros Hne.
      destruct (check_failover_change p _ Hbefore Hne)
        as (m' & Hrun & Hlp & _ & _ & Hcool).
      rewrite Hrun. simpl. split; [exact Hlp|].
      destruct (cooldown_elapsed cfg _ _).
      * apply Hcool.
      * rewrite app_nil_r. apply Hcool.
    + intros Heq. rewrite check_failover_same by assumption. reflexivity.
Qed.

End FailoverDetector.

(** ** The arithmetic of the detectors and the specification's *)

Lemma count_errors_spec (w : list request_info) :
  count_errors w = Spec.error_count w.
Proof.
  unfold count_errors. induction w as [|r w IH]; simpl; [reflexivity|].
  destruct (ri_is_error r); simpl; rewrite IH; reflexivity.
Qed.

Lemma error_rate_of_spec (errors total : nat) :
  error_rate_of errors total = Spec.percentage errors total.
Proof. reflexivity. Qed.

(** Against the default threshold of 2.0 and on a window of 10 to 200
    records, the binary64 percentage is over the threshold exactly when the
    exact one is: no rounding moves a window across the threshold. *)
Lemma percentage_table :
  forallb
    (fun total =>
       forallb
         (fun errors =>
            Bool.eqb
              (PrimFloat.ltb 2%float (Spec.percentage errors total))
              (2 * Z.of_nat total <? 100 * Z.of_nat errors))
         (seq 0 (S total)))
    (seq 10 191) = true.
Proof. vm_compute. reflexivity. Qed.

Lemma percentage_over_two_percent (errors total : nat) :
  (10 <= total <= 200)%nat -> (errors <= total)%nat ->
  PrimFloat.ltb 2%float (Spec.percentage errors total)
  = (2 * Z.of_nat total <? 100 * Z.of_nat errors).
Proof.
  intros Ht He. pose proof percentage_table as H.
  rewrite forallb_forall in H. specialize (H total).
  rewrite forallb_forall in H.
  apply Bool.eqb_prop. apply H.
  - apply in_seq. lia.
  - apply in_seq. lia.
Qed.

Lemma error_count_bound (w : list request_info) :
  (Spec.error_count w <= List.length w)%nat.
Proof.
  induction w as [|r w IH]; simpl; [lia|]. destruct (ri_is_error r); lia.
Qed.

(** [f > n] on a float and an int is the order of the rationals. *)
Lemma float_gt_int_over (f : float) (n : Z) :
  Py.float_gt_int f n = true <-> Spec.over f n.
Proof.
  unfold Py.float_gt_int, Spec.over, Spec.value.
  destruct (Prim2SF f) as [s|s| |s m e].
  - rewrite Z.ltb_lt. unfold Qlt. simpl. lia.
  - destruct s; simpl; split; congruence.
  - split; discriminate.
  - change (if s then Z.neg m else Z.pos m) with (Py.signed s m).
    destruct (Z.leb_spec 0 e) as [He|He].
    + rewrite Z.ltb_lt. rewrite <- Zlt_Qlt. reflexivity.
    + rewrite Z.ltb_lt. unfold Qlt. simpl Qnum. simpl Qden.
      rewrite Z2Pos.id by (apply Z.pow_pos_nonneg; lia). lia.
Qed.

Lemma cooldown_elapsed_over (cfg : config) (now last : float) :
  cooldown_elapsed cfg now last = true
  <-> Spec.over (PrimFloat.sub now last) (ALERT_COOLDOWN_SEC cfg).
Proof. apply float_gt_int_over. Qed.

Lemma cooldown_not_elapsed_over (cfg : config) (now last : float) :
  cooldown_elapsed cfg now last = false
  <-> ~ Spec.over (PrimFloat.sub now last) (ALERT_COOLDOWN_SEC cfg).
Proof.
  rewrite <- cooldown_elapsed_over.
  destruct (cooldown_elapsed cfg now last); split; congruence.
Qed.

(** With the default cooldown of 300 seconds and a last alert at the
    sample clock's start, a detection a whole number of seconds later, up
    to 1000, is past the cooldown exactly from 301 seconds on. *)
Lemma cooldown_of_whole_seconds (seconds : nat) :
  (seconds <= 1000)%nat ->
  cooldown_elapsed default_config (Sample.clock seconds) (Sample.clock 0)
  = (300 <? seconds)%nat.
Proof.
  intros H.
  assert (Htable : forallb
            (fun d => Bool.eqb
                        (cooldown_elapsed default_config (Sample.clock d)
                           (Sample.clock 0))
                        (300 <? d)%nat)
            (seq 0 1001) = true) by (vm_compute; reflexivity).
  rewrite forallb_forall in Htable.
  apply Bool.eqb_prop, Htable, in_seq. lia.
Qed.

(** The sequence of a concrete run: blue, then green, then blue again. *)
Lemma failover_state_machine_witness :
  let check := check_failover (Sample.with_webhook false) Sample.clock
                 Sample.network_ok in
  for_each check [PStr "blue"] initial
    = (Ok tt, set_last_pool (PStr "blue") initial)
  /\ last_pool (snd (for_each check [PStr "blue"; PStr "green"] initial))
     = PStr "green".
Proof.
  destruct (failover_state_machine (Sample.with_webhook false) Sample.clock
              Sample.network_ok (PStr "blue") [PStr "green"; PStr "blue"]
              initial eq_refl)
    as [Hfirst Hlater].
  - repeat constructor.
  - split; [exact Hfirst|].
    destruct (Hlater [] (PStr "green") [PStr "blue"] eq_refl)
      as (_ & _ & Hchange & _).
    apply Hchange. reflexivity.
Defined.

(** ** The sliding window and the error-rate detector *)

Lemma window_last_snoc (w : list request_info) (r : request_info) :
  window_last (w ++ [r]) = Ok r.
Proof. unfold window_last. rewrite rev_app_distr. reflexivity. Qed.

Lemma window_append_newest (cfg : config) (r newest : request_info)
    (w older : list request_info) :
  window_append cfg r w = older ++ [newest] -> newest = r.
Proof.
  unfold window_append.
  destruct (WINDOW_SIZE cfg <? List.length (w ++ [r]))%nat.
  - destruct w as [|a w]; simpl.
    + destruct older; discriminate.
    + intros H. apply app_inj_tail in H. symmetry. apply H.
  - intros H. apply app_inj_tail in H. symmetry. apply H.
Qed.

Lemma window_append_length (cfg : config) (r : request_info)
    (w : list request_info) :
  (List.length w <= WINDOW_SIZE cfg)%nat ->
  (List.length (window_append cfg r w) <= WINDOW_SIZE cfg)%nat.
Proof.
  intros Hw. unfold window_append.
  destruct (Nat.ltb_spec (WINDOW_SIZE cfg) (List.length (w ++ [r]))) as [Hlt|Hge].
  - rewrite length_tl, length_app. simpl. lia.
  - exact Hge.
Qed.

Section ErrorRateDetector.

Variable cfg : config.
Variable clock : nat -> float.
Variable network : nat -> response.

Local Abbreviation check := (check_error_rate cfg clock network).

Lemma check_error_rate_small (m : machine) :
  (List.length (request_window m) < 10)%nat -> check m = (Ok tt, m).
Proof.
  intros H. unfold check_error_rate, bind, read, ret.
  apply Nat.ltb_lt in H. rewrite H. reflexivity.
Qed.

Lemma check_error_rate_below (m : machine) :
  let w := request_window m in
  PrimFloat.ltb (ERROR_RATE_THRESHOLD cfg)
    (error_rate_of (count_errors w) (List.length w)) = false ->
  check m = (Ok tt, m).
Proof.
  intros w H. unfold check_error_rate, bind, read, ret.
  destruct (List.length (request_window m) <? 10)%nat; [reflexivity|].
  fold w. rewrite H. reflexivity.
Qed.

Lemma check_error_rate_breach (m : machine) :
  let w := request_window m in
  let rate := error_rate_of (count_errors w) (List.length w) in
  let now := clock (ticks m) in
  (10 <= List.length w)%nat ->
  PrimFloat.ltb (ERROR_RATE_THRESHOLD cfg) rate = true ->
  exists m',
    check m = (Ok tt, m')
    /\ last_pool m' = last_pool m
    /\ request_window m' = w
    /\ last_failover_alert m' = last_failover_alert m
    /\ (if cooldown_elapsed cfg now (last_error_rate_alert m)
        then (exists older newest,
                w = older ++ [newest]
                /\ alerts m' = alerts m ++
                     [("error", HighErrorRate rate (count_errors w)
                                  (List.length w) (ri_pool newest))])
             /\ last_error_rate_alert m' = now
        else alerts m' = alerts m
             /\ posts m' = posts m
             /\ last_error_rate_alert m' = last_error_rate_alert m).
Proof.
  intros w rate now Hlen Hbreach.
  unfold check_error_rate. unfold bind at 1. unfold read at 1.
  apply Nat.ltb_ge in Hlen. fold w. rewrite Hlen. fold rate. rewrite Hbreach.
  rewrite bind_time_time, bind_read.
  change (last_error_rate_alert (tick m)) with (last_error_rate_alert m).
  fold now.
  destruct (cooldown_elapsed cfg now (last_error_rate_alert m)).
  - destruct (exists_last (l := w)) as (older & newest & Hw).
    { intros E. rewrite E in Hlen. discriminate Hlen. }
    replace (window_last w) with (Ok newest)
      by (rewrite Hw; symmetry; apply window_last_snoc).
    rewrite bind_lift_ok.
    destruct (send_slack_alert_effect cfg clock network
                (HighErrorRate rate (count_errors w) (List.length w)
                   (ri_pool newest)) "error" (tick m))
      as (d & m1 & Hs & H1 & H2 & H3 & H4 & H5).
    unfold bind. rewrite Hs. unfold modify. eexists. split; [reflexivity|].
    simpl. simpl in H1, H2, H3, H5.
    repeat split; try assumption.
    exists older, newest. split; assumption.
  - unfold ret. eexists. split; [reflexivity|]. simpl. repeat split; reflexivity.
Qed.

(** The detector, in the terms of the code. *)
Lemma check_error_rate_effect (m : machine) :
  let w := request_window m in
  let total_count := List.length w in
  let error_count := count_errors w in
  let error_rate := error_rate_of error_count total_count in
  let now := clock (ticks m) in
  let breach := PrimFloat.ltb (ERROR_RATE_THRESHOLD cfg) error_rate in
  let fires := (10 <=? total_count)%nat && breach
               && cooldown_elapsed cfg now (last_error_rate_alert m) in
  exists m',
    check m = (Ok tt, m')
    /\ ((total_count < 10)%nat -> m' = m)
    /\ (breach = false -> m' = m)
    /\ (fires = false -> alerts m' = alerts m /\ posts m' = posts m)
    /\ (fires = true ->
          exists older newest,
            w = older ++ [newest]
            /\ alerts m' = alerts m ++
                 [("error", HighErrorRate error_rate error_count total_count
                              (ri_pool newest))]
            /\ forall r w0, w = window_append cfg r w0 -> newest = r)
    /\ (total_count = 10%nat -> error_count = 1%nat ->
        ERROR_RATE_THRESHOLD cfg = ERROR_RATE_THRESHOLD default_config ->
        error_rate = 10%float /\ breach = true)
    /\ (forall info m0,
          exists m1,
            track_request cfg clock network info m0 = check m1
            /\ request_window m1
               = window_append cfg info (request_window m0)).
Proof.
  intros w total_count error_count error_rate now breach fires.
  assert (Hafter : forall info m0,
            exists m1,
              track_request cfg clock network info m0 = check m1
              /\ request_window m1
                 = window_append cfg info (request_window m0)).
  { intros info m0. unfold track_request. rewrite bind_modify.
    set (m1 := set_request_window _ m0).
    destruct (Py.truthy (ri_pool info)).
    - pose proof (check_failover_returns cfg clock network (ri_pool info) m1)
        as Hr.
      pose proof (check_failover_frame cfg clock network (ri_pool info) m1)
        as [Hw _].
      unfold bind.
      destruct (check_failover cfg clock network (ri_pool info) m1) as [r m2].
      simpl in Hr, Hw. subst r. exists m2. split; [reflexivity|exact Hw].
    - exists m1. split; reflexivity. }
  assert (Hexample : total_count = 10%nat -> error_count = 1%nat ->
            ERROR_RATE_THRESHOLD cfg = ERROR_RATE_THRESHOLD default_config ->
            error_rate = 10%float /\ breach = true).
  { intros Ht He Hc. unfold breach, error_rate. rewrite Ht, He, Hc.
    split; vm_compute; reflexivity. }
  assert (Hlast : (total_count = 10%nat -> error_count = 1%nat ->
            ERROR_RATE_THRESHOLD cfg = ERROR_RATE_THRESHOLD default_config ->
            error_rate = 10%float /\ breach = true)
          /\ (forall info m0,
                exists m1,
                  track_request cfg clock network info m0 = check m1
                  /\ request_window m1
                     = window_append cfg info (request_window m0)))
    by (split; assumption).
  clear Hexample Hafter.
  destruct (Nat.lt_ge_cases total_count 10) as [Hsmall|Hlarge].
  - exists m. split; [apply check_error_rate_small, Hsmall|].
    assert (Hf : fires = false).
    { unfold fires. apply Nat.leb_gt in Hsmall. rewrite Hsmall. reflexivity. }
    rewrite Hf.
    split; [reflexivity|]. split; [reflexivity|].
    split; [split; reflexivity|]. split; [discriminate|exact Hlast].
  - destruct breach eqn:Hb.
    + destruct (check_error_rate_breach m Hlarge Hb)
        as (m' & Hrun & _ & _ & _ & Hcool).
      exists m'. split; [exact Hrun|].
      split; [intros; unfold total_count in *; lia|].
      split; [discriminate|].
      assert (Hf : fires = cooldown_elapsed cfg now (last_error_rate_alert m)).
      { unfold fires. apply Nat.leb_le in Hlarge. fold total_count in Hlarge.
        rewrite Hlarge. reflexivity. }
      rewrite Hf. fold w now in Hcool.
      destruct (cooldown_elapsed cfg now (last_error_rate_alert m)).
      * destruct Hcool as [(older & newest & Hw & Ha) _].
        split; [discriminate|]. split; [|exact Hlast].
        intros _. exists older, newest. split; [exact Hw|]. split; [exact Ha|].
        intros r w0 Happ. rewrite Happ in Hw.
        apply (window_append_newest cfg r newest w0 older Hw).
      * split; [intros _; split; apply Hcool|].
        split; [discriminate|exact Hlast].
    + exists m. split; [apply check_error_rate_below, Hb|].
      assert (Hf : fires = false).
      { unfold fires. rewrite andb_false_r. reflexivity. }
      rewrite Hf.
      split; [reflexivity|]. split; [reflexivity|].
      split; [split; reflexivity|]. split; [discriminate|exact Hlast].
Qed.

(** C2: [check_error_rate] does nothing on a window of fewer than 10
    records, whatever their errors; on 10 records or more it sends an
    error-rate alert exactly when the percentage of error records,
    [error_count / total_count * 100] in binary64 arithmetic, is over
    [ERROR_RATE_THRESHOLD] and the cooldown has elapsed, that is, the time
    since the last error-rate alert is over [ALERT_COOLDOWN_SEC]; the
    alert names the pool of the newest record of the window, which is the
    record just appended; 1 error in 10 records is 10.0 percent and over
    the default threshold; against the default threshold and up to 200
    records the threshold is crossed exactly when errors / total > 2 / 100;
    and every record that enters the window is followed by a run of
    [check_error_rate] on that window. *)
Theorem error_rate_detector (m : machine) :
  let w := request_window m in
  let total_count := List.length w in
  let error_count := Spec.error_count w in
  let error_rate := Spec.percentage error_count total_count in
  let now := clock (ticks m) in
  let breach := PrimFloat.ltb (ERROR_RATE_THRESHOLD cfg) error_rate in
  let fires := (10 <=? total_count)%nat && breach
               && cooldown_elapsed cfg now (last_error_rate_alert m) in
  exists m',
    check m = (Ok tt, m')
    /\ ((total_count < 10)%nat -> m' = m)
    /\ (breach = false -> m' = m)
    /\ (fires = false -> alerts m' = alerts m /\ posts m' = posts m)
    /\ (fires = true ->
          exists older newest,
            w = older ++ [newest]
            /\ alerts m' = alerts m ++
                 [("error", HighErrorRate error_rate error_count total_count
                              (ri_pool newest))]
            /\ forall r w0, w = window_append cfg r w0 -> newest = r)
    /\ (total_count = 10%nat -> error_count = 1%nat ->
        ERROR_RATE_THRESHOLD cfg = ERROR_RATE_THRESHOLD default_config ->
        error_rate = 10%float /\ breach = true)
    /\ (forall info m0,
          exists m1,
            track_request cfg clock network info m0 = check m1
            /\ request_window m1
               = window_append cfg info (request_window m0))
    /\ (cooldown_elapsed cfg now (last_error_rate_alert m) = true
        <-> Spec.over (PrimFloat.sub now (last_error_rate_alert m))
              (ALERT_COOLDOWN_SEC cfg))
    /\ (ERROR_RATE_THRESHOLD cfg = 2%float ->
        (10 <= total_count <= 200)%nat ->
        breach = (2 * Z.of_nat total_count <? 100 * Z.of_nat error_count)).
Proof.
  intros w total_count error_count error_rate now breach fires.
  destruct (check_error_rate_effect m)
    as (m' & Hrun & Hsmall & Hbelow & Hquiet & Hfires & Hten & Hafter).
  cbv zeta in Hsmall, Hbelow, Hquiet, Hfires, Hten.
  rewrite count_errors_spec, error_rate_of_spec in Hbelow, Hquiet, Hfires, Hten.
  exists m'. split; [exact Hrun|]. split; [exact Hsmall|].
  split; [exact Hbelow|]. split; [exact Hquiet|]. split; [exact Hfires|].
  split; [exact Hten|]. split; [exact Hafter|].
  split; [apply cooldown_elapsed_over|].
  intros Hthreshold Htotal. unfold breach. rewrite Hthreshold.
  apply percentage_over_two_percent; [exact Htotal|].
  apply error_count_bound.
Qed.

End ErrorRateDetector.

(** Ten records of which the newest is the one error, on a machine that
    never alerted: the alert goes out and names the pool of that record. *)
Lemma error_rate_detector_witness :
  let w := repeat (Sample.ok_record "blue") 9 ++ [Sample.error_record "green"] in
  alerts (snd (check_error_rate (Sample.with_webhook false) Sample.clock
                 Sample.network_ok (Sample.tracking "green" w)))
  = [("error", HighErrorRate 10%float 1 10 (PStr "green"))].
Proof.
  intros w.
  destruct (error_rate_detector (Sample.with_webhook false) Sample.clock
              Sample.network_ok (Sample.tracking "green" w))
    as (m' & Hrun & _ & _ & _ & Hfires & _).
  rewrite Hrun.
  destruct (Hfires eq_refl) as (older & newest & Hw & Halerts & _).
  change (request_window (Sample.tracking "green" w))
    with (repeat (Sample.ok_record "blue") 9 ++ [Sample.error_record "green"])
    in Hw.
  apply app_inj_tail in Hw. destruct Hw as [_ Hnewest].
  rewrite <- Hnewest in Halerts. exact Halerts.
Defined.

(** ** The cooldown of the two kinds of alert *)

Section Cooldown.

Variable cfg : config.
Variable clock : nat -> float.
Variable network : nat -> response.

Local Abbreviation run := (detector cfg clock network).

(** One detection: the alert is dispatched when the cooldown of its kind
    has elapsed, and then the time of the detection becomes the time of
    the last alert of the kind; the other kind's time is not touched. *)
Lemma detection_step (d : detection) (m : machine) :
  let k := kind_of d in
  let now := clock (ticks m) in
  detects cfg d m ->
  exists m',
    run d m = (Ok tt, m')
    /\ last_alert (other k) m' = last_alert (other k) m
    /\ (if cooldown_elapsed cfg now (last_alert k m)
        then dispatched k m m' /\ last_alert k m' = now
        else alerts m' = alerts m
             /\ posts m' = posts m
             /\ last_alert k m' = last_alert k m).
Proof.
  destruct d as [p|]; intros k now [H1 H2]; simpl in k; subst k.
  - destruct (check_failover_change cfg clock network p m H1 H2)
      as (m' & Hrun & _ & _ & Hother & Hcool).
    exists m'. split; [exact Hrun|]. split; [exact Hother|].
    simpl last_alert. fold now in Hcool.
    destruct (cooldown_elapsed cfg now (last_failover_alert m)).
    + split; [|apply Hcool]. eexists. apply Hcool.
    + exact Hcool.
  - destruct (check_error_rate_breach cfg clock network m H1 H2)
      as (m' & Hrun & _ & _ & Hother & Hcool).
    exists m'. split; [exact Hrun|]. split; [exact Hother|].
    simpl last_alert. fold now in Hcool.
    destruct (cooldown_elapsed cfg now (last_error_rate_alert m)).
    + destruct Hcool as [(older & newest & _ & Ha) Ht].
      split; [|exact Ht]. eexists. exact Ha.
    + exact Hcool.
Qed.

(** C3: for each kind of alert, a detection whose time [t1] is more than
    [ALERT_COOLDOWN_SEC] seconds after the last alert of the kind
    dispatches an alert, and [t1] becomes the kind's last-alert time,
    whatever the webhook then does; a later detection of the same kind at
    time [t2], with no dispatch of the kind in between, dispatches nothing
    when [t2 - t1] is not over [ALERT_COOLDOWN_SEC] and dispatches again
    when it is; neither detection touches the last-alert time of the
    other kind.  The times are binary64 numbers, [t2 - t1] is their
    binary64 difference, and it is compared with the whole number of
    seconds as a rational. *)
Theorem cooldown_gate (d1 d2 : detection) (m m2 : machine) :
  let k := kind_of d1 in
  let m1 := snd (run d1 m) in
  let m3 := snd (run d2 m2) in
  let t1 := clock (ticks m) in
  let t2 := clock (ticks m2) in
  let cooldown := ALERT_COOLDOWN_SEC cfg in
  kind_of d2 = k ->
  detects cfg d1 m ->
  Spec.over (PrimFloat.sub t1 (last_alert k m)) cooldown ->
  detects cfg d2 m2 ->
  last_alert k m2 = last_alert k m1 ->
  dispatched k m m1
  /\ last_alert k m1 = t1
  /\ last_alert (other k) m1 = last_alert (other k) m
  /\ (~ Spec.over (PrimFloat.sub t2 t1) cooldown ->
        alerts m3 = alerts m2 /\ posts m3 = posts m2 /\ last_alert k m3 = t1)
  /\ (Spec.over (PrimFloat.sub t2 t1) cooldown ->
        dispatched k m2 m3 /\ last_alert k m3 = t2)
  /\ last_alert (other k) m3 = last_alert (other k) m2.
Proof.
  intros k m1 m3 t1 t2 cooldown Hkind Hd1 Hfirst Hd2 Hsince.
  apply cooldown_elapsed_over in Hfirst.
  destruct (detection_step d1 m Hd1) as (m1' & Hrun1 & Hother1 & Hcool1).
  destruct (detection_step d2 m2 Hd2) as (m3' & Hrun2 & Hother2 & Hcool2).
  fold k t1 in Hother1, Hcool1. rewrite Hkind in Hother2, Hcool2.
  fold t2 in Hcool2.
  assert (E1 : m1 = m1') by (unfold m1; rewrite Hrun1; reflexivity).
  assert (E3 : m3 = m3') by (unfold m3; rewrite Hrun2; reflexivity).
  rewrite <- E1 in Hother1, Hcool1. rewrite <- E3 in Hother2, Hcool2.
  rewrite Hfirst in Hcool1. destruct Hcool1 as [Hdisp1 Ht1].
  rewrite Hsince, Ht1 in Hcool2.
  split; [exact Hdisp1|]. split; [exact Ht1|]. split; [exact Hother1|].
  split; [|split; [|exact Hother2]].
  - intros Hwithin. apply cooldown_not_elapsed_over in Hwithin.
    rewrite Hwithin in Hcool2. exact Hcool2.
  - intros Hafter. apply cooldown_elapsed_over in Hafter.
    rewrite Hafter in Hcool2. exact Hcool2.
Qed.

End Cooldown.

(** A failover to green is alerted although the webhook is down; the way
    back to blue two seconds later is not. *)
Lemma cooldown_gate_witness :
  let run := detector (Sample.with_webhook false) Sample.clock
               Sample.network_down in
  let m := Sample.tracking "blue" [] in
  let m1 := snd (run (PoolChange (PStr "green")) m) in
  let m3 := snd (run (PoolChange (PStr "blue")) m1) in
  dispatched Failover m m1
  /\ last_failover_alert m1 = Sample.clock 0
  /\ alerts m3 = alerts m1
  /\ last_failover_alert m3 = Sample.clock 0.
Proof.
  intros run m m1 m3.
  destruct (cooldown_gate (Sample.with_webhook false) Sample.clock
              Sample.network_down
              (PoolChange (PStr "green")) (PoolChange (PStr "blue")) m m1)
    as (Hdisp & Ht1 & _ & Hwithin & _).
  - reflexivity.
  - split; [discriminate|reflexivity].
  - apply cooldown_elapsed_over. vm_compute. reflexivity.
  - split; [discriminate|reflexivity].
  - reflexivity.
  - split; [exact Hdisp|]. split; [exact Ht1|].
    destruct Hwithin as (Ha & _ & Ht3).
    + apply cooldown_not_elapsed_over. vm_compute. reflexivity.
    + split; [exact Ha|exact Ht3].
Defined.

(** ** The notifier *)

Section Notifier.

Variable cfg : config.
Variable clock : nat -> float.
Variable network : nat -> response.

(** The post that [send_slack_alert] makes on [m], and its result. *)
Lemma send_slack_alert_posts (c : config) (msg : message) (kind : string)
    (m : machine) :
  SLACK_WEBHOOK_URL c <> "" ->
  (MAINTENANCE_MODE c && String.eqb kind "failover") = false ->
  send_slack_alert c clock network msg kind m
  = (Ok match network (List.length (posts m)) with
        | StatusCode code => code =? 200
        | PostRaises => false
        end,
     log_post {| color := color_of kind; text := msg;
                 ts := Py.int_of_float (clock (ticks m)) |}
       (tick (log_alert (kind, msg) m))).
Proof.
  intros Hurl Hmaint. unfold send_slack_alert.
  rewrite bind_modify.
  destruct (String.eqb_spec (SLACK_WEBHOOK_URL c) "") as [E|_];
    [contradiction|].
  rewrite Hmaint. rewrite bind_time_time.
  unfold bind, requests_post. simpl.
  destruct (network (List.length (posts m))); reflexivity.
Qed.

(** C7: in maintenance mode a failover alert is not posted and
    [send_slack_alert] returns [False]; an error-rate alert goes the same
    way with maintenance mode on and off, and is posted when a webhook is
    configured; with maintenance mode off a failover alert is posted
    too. *)
Theorem maintenance_mode_asymmetric (msg : message) (m : machine) :
  let on := with_maintenance true cfg in
  let off := with_maintenance false cfg in
  let send c := send_slack_alert c clock network msg in
  let attempt kind :=
    {| color := color_of kind; text := msg;
       ts := Py.int_of_float (clock (ticks m)) |} in
  let answer :=
    match network (List.length (posts m)) with
    | StatusCode code => code =? 200
    | PostRaises => false
    end in
  fst (send on "failover" m) = Ok false
  /\ posts (snd (send on "failover" m)) = posts m
  /\ send on "error" m = send off "error" m
  /\ (SLACK_WEBHOOK_URL cfg <> "" ->
        posts (snd (send on "error" m)) = posts m ++ [attempt "error"]
        /\ fst (send on "error" m) = Ok answer
        /\ posts (snd (send off "failover" m)) = posts m ++ [attempt "failover"]
        /\ fst (send off "failover" m) = Ok answer).
Proof.
  intros on off send attempt answer.
  split; [|split; [|split]].
  - unfold send, send_slack_alert. rewrite bind_modify. simpl.
    destruct (String.eqb (SLACK_WEBHOOK_URL cfg) ""); reflexivity.
  - unfold send, send_slack_alert. rewrite bind_modify. simpl.
    destruct (String.eqb (SLACK_WEBHOOK_URL cfg) ""); reflexivity.
  - unfold send, send_slack_alert. rewrite !bind_modify. simpl.
    reflexivity.
  - intros Hurl.
    assert (Hon : send on "error" m
                  = (Ok answer, log_post (attempt "error")
                                  (tick (log_alert ("error", msg) m)))).
    { apply (send_slack_alert_posts on msg "error" m); [exact Hurl|].
      reflexivity. }
    assert (Hoff : send off "failover" m
                   = (Ok answer, log_post (attempt "failover")
                                   (tick (log_alert ("failover", msg) m)))).
    { apply (send_slack_alert_posts off msg "failover" m); [exact Hurl|].
      reflexivity. }
    rewrite Hon, Hoff. repeat split; reflexivity.
Qed.

End Notifier.

(** With maintenance mode on and a webhook that answers, a failover alert
    stays in, and an error-rate alert is posted and delivered. *)
Lemma maintenance_mode_asymmetric_witness :
  let send := send_slack_alert (Sample.with_webhook true) Sample.clock
                Sample.network_ok in
  let failover := FailoverDetected (PStr "blue") (PStr "green") in
  let breach := HighErrorRate 10%float 1 10 (PStr "green") in
  fst (send failover "failover" initial) = Ok false
  /\ posts (snd (send failover "failover" initial)) = []
  /\ posts (snd (send breach "error" initial))
     = [{| color := "#FF0000"; text := breach; ts := 1700000000 |}]
  /\ fst (send breach "error" initial) = Ok true.
Proof.
  intros send failover breach.
  destruct (maintenance_mode_asymmetric (Sample.with_webhook true) Sample.clock
              Sample.network_ok failover initial) as (Hret & Hposts & _).
  destruct (maintenance_mode_asymmetric (Sample.with_webhook true) Sample.clock
              Sample.network_ok breach initial) as (_ & _ & _ & Herror).
  destruct Herror as (Hp & Hr & _); [discriminate|].
  split; [exact Hret|]. split; [exact Hposts|]. split; [exact Hp|exact Hr].
Defined.

(** ** Strings: blanks, digits and numerals *)

Lemma all_chars_app (p : ascii -> bool) (s t : string) :
  PyStr.all_chars p (s ++ t) = PyStr.all_chars p s && PyStr.all_chars p t.
Proof.
  induction s as [|c s IH]; simpl.
  - reflexivity.
  - rewrite IH. apply andb_assoc.
Qed.

Lemma string_app_assoc (s t u : string) :
  ((s ++ t) ++ u = s ++ (t ++ u))%string.
Proof. induction s as [|c s IH]; simpl; [reflexivity | now rewrite IH]. Qed.

Lemma string_app_nil_r (s : string) : (s ++ "" = s)%string.
Proof. induction s as [|c s IH]; simpl; [reflexivity | now rewrite IH]. Qed.

Lemma decimal_not_space (c : ascii) :
  PyStr.isdecimal_char c = true -> PyStr.isspace c = false.
Proof.
  unfold PyStr.isdecimal_char, PyStr.isspace. intros H.
  apply andb_true_iff in H. destruct H as [H1 H2].
  apply Nat.leb_le in H1. apply Nat.leb_le in H2.
  repeat match goal with
         | |- context [(?a <=? ?b)%nat] => destruct (Nat.leb_spec a b)
         | |- context [(?a =? ?b)%nat] => destruct (Nat.eqb_spec a b)
         end; simpl; try reflexivity; lia.
Qed.

Lemma lstrip_blanks (b s : string) :
  PyStr.all_chars PyStr.isspace b = true ->
  PyStr.lstrip (b ++ s) = PyStr.lstrip s.
Proof.
  induction b as [|c b IH]; simpl; intros H.
  - reflexivity.
  - apply andb_true_iff in H. destruct H as [Hc Hb]. rewrite Hc. apply IH, Hb.
Qed.

Lemma rstrip_blank (b : string) :
  PyStr.all_chars PyStr.isspace b = true -> PyStr.rstrip b = EmptyString.
Proof.
  induction b as [|c b IH]; simpl; intros H.
  - reflexivity.
  - apply andb_true_iff in H. destruct H as [Hc Hb].
    rewrite (IH Hb), Hc. reflexivity.
Qed.

Lemma rstrip_blanks (s b : string) :
  PyStr.all_chars PyStr.isspace b = true ->
  PyStr.rstrip (s ++ b) = PyStr.rstrip s.
Proof.
  intros Hb. induction s as [|c s IH]; simpl.
  - apply rstrip_blank, Hb.
  - rewrite IH. reflexivity.
Qed.

Lemma rstrip_decimal (s : string) :
  PyStr.all_chars PyStr.isdecimal_char s = true -> PyStr.rstrip s = s.
Proof.
  induction s as [|c s IH]; simpl; intros H.
  - reflexivity.
  - apply andb_true_iff in H. destruct H as [Hc Hs].
    rewrite (IH Hs), (decimal_not_space c Hc). destruct s; reflexivity.
Qed.

Lemma lstrip_split (s : string) :
  exists b, s = (b ++ PyStr.lstrip s)%string
            /\ PyStr.all_chars PyStr.isspace b = true.
Proof.
  induction s as [|c s (b & Hs & Hb)]; simpl.
  - exists EmptyString. split; reflexivity.
  - destruct (PyStr.isspace c) eqn:Hc.
    + exists (String c b). simpl. rewrite Hc, Hb. split; [congruence|reflexivity].
    + exists EmptyString. split; reflexivity.
Qed.

Lemma rstrip_split (s : string) :
  exists b, s = (PyStr.rstrip s ++ b)%string
            /\ PyStr.all_chars PyStr.isspace b = true.
Proof.
  induction s as [|c s (b & Hs & Hb)]; simpl.
  - exists EmptyString. split; reflexivity.
  - destruct (PyStr.rstrip s) as [|d r] eqn:Hr.
    + simpl in Hs. destruct (PyStr.isspace c) eqn:Hc.
      * exists (String c b). simpl. rewrite Hc, Hb. split; [congruence|reflexivity].
      * exists b. simpl. split; [congruence|exact Hb].
    + exists b. split; [|exact Hb]. simpl. simpl in Hs. congruence.
Qed.

(** [strip] takes the blanks off both ends, and only them. *)
Lemma strip_split (s : string) :
  exists before after,
    s = (before ++ PyStr.strip s ++ after)%string
    /\ PyStr.all_chars PyStr.isspace before = true
    /\ PyStr.all_chars PyStr.isspace after = true.
Proof.
  destruct (lstrip_split s) as (b & Hs & Hb).
  destruct (rstrip_split (PyStr.lstrip s)) as (a & Hl & Ha).
  exists b, a. unfold PyStr.strip. rewrite <- Hl. auto.
Qed.

Lemma strip_numeral (before numeral after : string) :
  PyStr.all_chars PyStr.isspace before = true ->
  PyStr.all_chars PyStr.isspace after = true ->
  PyStr.all_chars PyStr.isdecimal_char numeral = true ->
  PyStr.strip (before ++ numeral ++ after) = numeral.
Proof.
  intros Hb Ha Hn. unfold PyStr.strip. rewrite lstrip_blanks by exact Hb.
  destruct numeral as [|c r].
  - simpl. destruct (lstrip_split after) as (b & Hs & Hb').
    apply rstrip_blank.
    rewrite Hs, all_chars_app in Ha. apply andb_true_iff in Ha. apply Ha.
  - simpl in Hn. apply andb_true_iff in Hn. destruct Hn as [Hc Hr].
    simpl PyStr.lstrip. rewrite (decimal_not_space c Hc).
    change (String c (r ++ after)) with (String c r ++ after)%string.
    rewrite rstrip_blanks by exact Ha.
    apply rstrip_decimal. simpl. rewrite Hc, Hr. reflexivity.
Qed.

Lemma decimal_value_snoc (s : string) (c : ascii) (acc : Z) :
  PyStr.decimal_value acc (s ++ String c EmptyString)
  = 10 * PyStr.decimal_value acc s + Spec.digit c.
Proof.
  revert acc. induction s as [|d s IH]; intros acc; simpl.
  - reflexivity.
  - apply IH.
Qed.

Lemma denotes_decimal (s : string) (n : Z) :
  Spec.denotes s n ->
  s <> EmptyString
  /\ PyStr.all_chars PyStr.isdecimal_char s = true
  /\ PyStr.decimal_value 0 s = n.
Proof.
  induction 1 as [c Hc | s n c Hs (Hne & Hall & Hval) Hc].
  - split; [discriminate|]. simpl. rewrite Hc. split; reflexivity.
  - split; [destruct s; discriminate|].
    rewrite all_chars_app, decimal_value_snoc, Hall, Hval. simpl.
    rewrite Hc. split; reflexivity.
Qed.

Lemma decimal_denotes_from (s p : string) (n : Z) :
  Spec.denotes p n ->
  PyStr.all_chars PyStr.isdecimal_char s = true ->
  Spec.denotes (p ++ s) (PyStr.decimal_value n s).
Proof.
  revert p n. induction s as [|c s IH]; intros p n Hp Hs; simpl.
  - rewrite string_app_nil_r. exact Hp.
  - simpl in Hs. apply andb_true_iff in Hs. destruct Hs as [Hc Hs].
    change (String c s) with (String c EmptyString ++ s)%string.
    rewrite <- string_app_assoc.
    apply IH; [|exact Hs]. apply Spec.denotes_more; assumption.
Qed.

Lemma decimal_denotes (s : string) :
  s <> EmptyString ->
  PyStr.all_chars PyStr.isdecimal_char s = true ->
  Spec.denotes s (PyStr.decimal_value 0 s).
Proof.
  destruct s as [|c s]; [congruence|]. intros _ H. simpl in H.
  apply andb_true_iff in H. destruct H as [Hc Hs].
  change (String c s) with (String c EmptyString ++ s)%string at 1.
  simpl PyStr.decimal_value.
  apply decimal_denotes_from; [|exact Hs].
  replace (10 * 0 + (Z.of_nat (nat_of_ascii c) - 48)) with (Spec.digit c)
    by (unfold Spec.digit; lia).
  apply Spec.denotes_digit, Hc.
Qed.

(** [int] on a stripped entry and the specification's numerals: what
    [int] returns the entry parses as, and [int] returns on every entry
    that parses and is not over the limit of digits. *)
Lemma int_of_str_parses (entry : string) (n : Z) :
  int_of_str (PyStr.strip entry) = Ok n -> Spec.parses_as entry n.
Proof.
  unfold int_of_str. intros H.
  destruct (strip_split entry) as (b & a & He & Hb & Ha).
  exists b, (PyStr.strip entry), a. repeat split; try assumption.
  destruct (PyStr.strip entry) as [|c r] eqn:Hs; [discriminate|].
  destruct (PyStr.all_chars PyStr.isdecimal_char (String c r)) eqn:Hd;
    [|discriminate].
  destruct (String.length (String c r) <=? max_str_digits)%nat;
    [|discriminate].
  injection H as <-. apply decimal_denotes; [discriminate|exact Hd].
Qed.

Lemma parses_int_of_str (entry : string) (n : Z) :
  Spec.parses_as entry n ->
  PyStr.all_chars PyStr.isdecimal_char (PyStr.strip entry) = true
  /\ PyStr.strip entry <> EmptyString
  /\ ((String.length (PyStr.strip entry) <= max_str_digits)%nat ->
      int_of_str (PyStr.strip entry) = Ok n)
  /\ forall n', int_of_str (PyStr.strip entry) = Ok n' -> n' = n.
Proof.
  intros (b & numeral & a & -> & Hb & Ha & Hn).
  destruct (denotes_decimal numeral n Hn) as (Hne & Hall & Hval).
  rewrite (strip_numeral b numeral a Hb Ha Hall).
  split; [exact Hall|]. split; [exact Hne|].
  unfold int_of_str. destruct numeral as [|c r]; [congruence|].
  rewrite Hall, andb_true_l. split.
  - intros Hlen. apply Nat.leb_le in Hlen. rewrite Hlen, Hval. reflexivity.
  - intros n'. destruct (_ <=? _)%nat; [|discriminate].
    rewrite Hval. congruence.
Qed.

Lemma decimal_is_digit (s : string) :
  s <> EmptyString ->
  PyStr.all_chars PyStr.isdecimal_char s = true ->
  PyStr.isdigit s = true.
Proof.
  intros Hne H. destruct s as [|c r]; [congruence|].
  unfold PyStr.isdigit.
  assert (G : forall t, PyStr.all_chars PyStr.isdecimal_char t = true ->
                        PyStr.all_chars PyStr.isdigit_char t = true).
  { induction t as [|d t IH]; simpl; [reflexivity|]. intros Ht.
    apply andb_true_iff in Ht. destruct Ht as [Hd Ht].
    rewrite (IH Ht), andb_true_r.
    unfold PyStr.isdigit_char. rewrite Hd. reflexivity. }
  apply G, H.
Qed.

Lemma res_map_all {A B : Type} (f : A -> res B) (l : list A) (ys : list B) :
  res_map f l = Ok ys -> forall x, In x l -> exists y, f x = Ok y /\ In y ys.
Proof.
  revert ys. induction l as [|x0 l IH]; simpl; intros ys H x Hin.
  - contradiction.
  - destruct (f x0) as [y0|e] eqn:Hx; simpl in H; [|discriminate].
    destruct (res_map f l) as [ys0|e] eqn:Hl; simpl in H; [|discriminate].
    injection H as <-. destruct Hin as [<-|Hin].
    + exists y0. split; [exact Hx|left; reflexivity].
    + destruct (IH ys0 eq_refl x Hin) as (y & Hy & Hys).
      exists y. split; [exact Hy|right; exact Hys].
Qed.

(** ** The error flag of a record *)

Lemma res_map_ok {A B : Type} (f : A -> res B) (l : list A) (ys : list B) :
  res_map f l = Ok ys ->
  forall y, In y ys <-> exists x, In x l /\ f x = Ok y.
Proof.
  revert ys. induction l as [|x l IH]; simpl; intros ys H y.
  - injection H as <-. split; [intros []|intros (x & [] & _)].
  - destruct (f x) as [y0|e] eqn:Hx; simpl in H; [|discriminate].
    destruct (res_map f l) as [ys0|e] eqn:Hl; simpl in H; [|discriminate].
    injection H as <-. specialize (IH ys0 eq_refl y). simpl. split.
    + intros [<-|Hin].
      * exists x. split; [left; reflexivity|exact Hx].
      * apply IH in Hin. destruct Hin as (x' & Hx' & Hf).
        exists x'. split; [right; exact Hx'|exact Hf].
    + intros (x' & [<-|Hin] & Hf).
      * left. congruence.
      * right. apply IH. exists x'. split; assumption.
Qed.

Lemma res_map_returns {A B : Type} (f : A -> res B) (l : list A) :
  Forall (fun x => exists y, f x = Ok y) l -> exists ys, res_map f l = Ok ys.
Proof.
  induction 1 as [|x l (y & Hy) _ (ys & Hys)]; simpl.
  - exists []. reflexivity.
  - rewrite Hy, Hys. exists (y :: ys). reflexivity.
Qed.

Lemma no_numeral_in_blank (n : Z) : ~ Spec.parses_as EmptyString n.
Proof.
  intros (b & numeral & a & H & _ & _ & Hn).
  apply denotes_decimal in Hn. destruct Hn as (Hne & _).
  destruct b; [|discriminate]. destruct numeral; [congruence|discriminate].
Qed.

(** The flag computed from the field is the specification's. *)
Lemma compute_is_error_spec (upstream_status : pyval) (b : bool) :
  compute_is_error upstream_status = Ok b ->
  (b = true <-> Spec.is_error upstream_status).
Proof.
  unfold compute_is_error. destruct (Py.truthy upstream_status) eqn:Ht.
  - destruct upstream_status as [| | | |us| |]; try discriminate.
    destruct (res_map _ _) as [statuses|e] eqn:Hmap; simpl; [|discriminate].
    intros H. injection H as <-.
    pose proof (res_map_ok _ _ _ Hmap) as Hin.
    rewrite existsb_exists. split.
    + intros (n & Hn & Hge). apply Hin in Hn. destruct Hn as (entry & He & Hint).
      apply filter_In in He. destruct He as [He _].
      exists entry, n. split; [exact He|]. split.
      * apply int_of_str_parses, Hint.
      * apply Z.leb_le, Hge.
    + intros (entry & n & He & Hp & Hge).
      destruct (parses_int_of_str entry n Hp) as (Hall & Hne & _ & Hsame).
      assert (Hfiltered : In entry
                (filter (fun s => PyStr.isdigit (PyStr.strip s))
                   (PyStr.split "," us))).
      { apply filter_In. split; [exact He|].
        apply decimal_is_digit; assumption. }
      destruct (res_map_all _ _ _ Hmap entry Hfiltered) as (n' & Hint & Hn').
      apply Hsame in Hint. subst n'.
      exists n. split; [exact Hn'|apply Z.leb_le, Hge].
  - intros H. injection H as <-. split; [discriminate|].
    intros (entry & n & He & Hp & _). exfalso.
    destruct upstream_status as [| | | |us| |]; simpl in He; try contradiction.
    simpl in Ht. apply negb_false_iff, String.eqb_eq in Ht. subst us.
    simpl in He. destruct He as [<-|[]].
    apply (no_numeral_in_blank n Hp).
Qed.

Lemma split_all_chars (p : ascii -> bool) (sep : ascii) (s : string) :
  PyStr.all_chars p s = true ->
  Forall (fun entry => PyStr.all_chars p entry = true) (PyStr.split sep s).
Proof.
  induction s as [|c s IH]; simpl; intros H.
  - constructor; [reflexivity|constructor].
  - apply andb_true_iff in H. destruct H as [Hc Hs]. specialize (IH Hs).
    destruct (Ascii.eqb c sep).
    + constructor; [reflexivity|exact IH].
    + destruct (PyStr.split sep s) as [|h t].
      * constructor; [simpl; rewrite Hc; reflexivity|constructor].
      * inversion IH as [|? ? Hh Ht]; subst.
        constructor; [simpl; rewrite Hc, Hh; reflexivity|exact Ht].
Qed.

Lemma strip_all_chars (p : ascii -> bool) (s : string) :
  PyStr.all_chars p s = true -> PyStr.all_chars p (PyStr.strip s) = true.
Proof.
  intros H. destruct (strip_split s) as (b & a & Hs & _).
  rewrite Hs, !all_chars_app in H.
  apply andb_true_iff in H. destruct H as [_ H].
  apply andb_true_iff in H. apply H.
Qed.

Lemma ascii_digits_are_decimal (s : string) :
  PyStr.all_chars PyStr.isascii s = true ->
  PyStr.all_chars PyStr.isdigit_char s = true ->
  PyStr.all_chars PyStr.isdecimal_char s = true.
Proof.
  induction s as [|c s IH]; simpl; [reflexivity|]. intros Ha Hd.
  apply andb_true_iff in Ha. destruct Ha as [Hc Ha].
  apply andb_true_iff in Hd. destruct Hd as [Hdc Hd].
  rewrite (IH Ha Hd), andb_true_r.
  unfold PyStr.isdigit_char in Hdc. unfold PyStr.isascii in Hc.
  apply Nat.ltb_lt in Hc.
  destruct (PyStr.isdecimal_char c); [reflexivity|]. simpl in Hdc.
  repeat match type of Hdc with
         | context [(?a =? ?b)%nat] => destruct (Nat.eqb_spec a b); [lia|]
         end.
  discriminate Hdc.
Qed.

Lemma split_lengths (sep : ascii) (s : string) :
  Forall (fun entry => (String.length entry <= String.length s)%nat)
    (PyStr.split sep s).
Proof.
  induction s as [|c s IH]; simpl.
  - repeat constructor.
  - destruct (Ascii.eqb c sep).
    + constructor; [simpl; lia|].
      eapply Forall_impl; [|exact IH]. simpl. intros; lia.
    + destruct (PyStr.split sep s) as [|h t].
      * constructor; [simpl; lia|constructor].
      * inversion IH as [|? ? Hh Ht]; subst.
        constructor; [simpl; lia|].
        eapply Forall_impl; [|exact Ht]. simpl. intros; lia.
Qed.

Lemma string_length_append (s t : string) :
  String.length (s ++ t) = (String.length s + String.length t)%nat.
Proof. induction s as [|c s IH]; simpl; [reflexivity | now rewrite IH]. Qed.

Lemma strip_length (s : string) :
  (String.length (PyStr.strip s) <= String.length s)%nat.
Proof.
  destruct (strip_split s) as (b & a & Hs & _).
  rewrite Hs at 2. rewrite !string_length_append. lia.
Qed.

(** On a field of ASCII text of no more characters than [int] takes
    digits, the computation of the flag returns. *)
Lemma compute_is_error_returns (us : string) :
  PyStr.all_chars PyStr.isascii us = true ->
  (String.length us <= max_str_digits)%nat ->
  exists b, compute_is_error (PStr us) = Ok b.
Proof.
  intros Ha Hlen. unfold compute_is_error.
  destruct (Py.truthy (PStr us)); [|exists false; reflexivity].
  destruct (res_map_returns (fun s => int_of_str (PyStr.strip s))
              (filter (fun s => PyStr.isdigit (PyStr.strip s))
                 (PyStr.split "," us))) as (statuses & Hmap).
  - apply Forall_forall. intros entry He. apply filter_In in He.
    destruct He as [He Hd].
    pose proof (split_all_chars PyStr.isascii "," us Ha) as Hall.
    rewrite Forall_forall in Hall. specialize (Hall entry He).
    apply strip_all_chars in Hall.
    pose proof (split_lengths "," us) as Hlens.
    rewrite Forall_forall in Hlens. specialize (Hlens entry He).
    pose proof (strip_length entry) as Hstrip.
    unfold int_of_str. destruct (PyStr.strip entry) as [|c r] eqn:Hs;
      [discriminate Hd|].
    unfold PyStr.isdigit in Hd.
    rewrite (ascii_digits_are_decimal _ Hall Hd).
    replace (String.length (String c r) <=? max_str_digits)%nat with true
      by (symmetry; apply Nat.leb_le; lia).
    eexists. reflexivity.
  - rewrite Hmap. simpl. eexists. reflexivity.
Qed.

(** [isdigit] takes the superscript digits for digits and [int] does not:
    an entry such as U+00B2 makes the loop body raise [ValueError] before a
    record is built. *)
Lemma superscript_entry_raises :
  compute_is_error (PStr (String (ascii_of_nat 178) EmptyString))
  = Raise ValueError.
Proof. reflexivity. Qed.

(** When a record is made from a decoded line, it has [is_error] true
    exactly when the [upstream_status] field of the line, split on commas,
    has an entry that parses as an integer of 500 or more. *)
Lemma is_error_derivation
    (log upstream_status : pyval) (info : request_info) :
  Py.get log "upstream_status" (PStr "") = Ok upstream_status ->
  extract_fields log = Ok (Some info) ->
  (ri_is_error info = true <-> Spec.is_error upstream_status).
Proof.
  intros Hget Hextract. unfold extract_fields in Hextract.
  rewrite Hget in Hextract.
  destruct (Py.get log "pool" (PStr "")) as [pool|e]; [|discriminate].
  destruct (Py.get log "status" (PInt 0)) as [status|e]; [|discriminate].
  destruct (Py.get log "request" (PStr "")) as [request|e]; [|discriminate].
  simpl in Hextract.
  destruct (is_health_check request) as [[|]|e]; simpl in Hextract;
    try discriminate.
  destruct (compute_is_error upstream_status) as [b|e] eqn:Hb;
    simpl in Hextract; [|discriminate].
  destruct (Py.get log "time" (PStr "")) as [time|e]; simpl in Hextract;
    [|discriminate].
  injection Hextract as <-. simpl.
  apply compute_is_error_spec, Hb.
Qed.

(** A retried request, with the statuses "502, 200". *)
Lemma is_error_derivation_witness : Spec.is_error (PStr "502, 200").
Proof.
  apply (is_error_derivation Sample.green_log (PStr "502, 200")
           {| ri_pool := PStr "green"; ri_status := PInt 0;
              ri_is_error := true; ri_time := PStr "" |}
           eq_refl eq_refl).
  reflexivity.
Defined.

Lemma superscript_is_no_numeral (n : Z) :
  ~ Spec.parses_as (String (ascii_of_nat 178) EmptyString) n.
Proof.
  intros H. apply parses_int_of_str in H. destruct H as [H _].
  vm_compute in H. discriminate H.
Qed.

(** C6 on the code: the field [502,²] has the entry 502, which parses as
    an integer of 500 or more, and the entry of a superscript two, which
    parses as no integer.  The entry is not ignored: it passes [isdigit],
    [int] raises [ValueError] on it, no record is made of the line and the
    exception leaves the loop over the batch.  Without the entry the
    record is an error.  An entry of 4301 digits raises in the same
    way. *)
Theorem superscript_digit_is_not_ignored :
  let two := String (ascii_of_nat 178) EmptyString in
  let field := Sample.superscript_status in
  let step := process_line (Sample.with_webhook false) Sample.json_loads
                Sample.clock Sample.network_ok in
  PyStr.split "," field = ["502"%string; two]
  /\ Spec.is_error (PStr field)
  /\ (forall n, ~ Spec.parses_as two n)
  /\ PyStr.isdigit (PyStr.strip two) = true
  /\ compute_is_error (PStr field) = Raise ValueError
  /\ compute_is_error (PStr "502") = Ok true
  /\ Sample.json_loads (PyStr.strip Sample.superscript_line)
     = Loaded Sample.superscript_log
  /\ step Sample.superscript_line initial = (Raise ValueError, initial)
  /\ compute_is_error (PStr (Sample.replicate 4301 "9")) = Raise ValueError.
Proof.
  intros two field step.
  split; [reflexivity|]. split; [|split; [apply superscript_is_no_numeral|]].
  - exists "502"%string, 502. split; [left; reflexivity|].
    split; [|lia].
    exists EmptyString, "502"%string, EmptyString.
    split; [reflexivity|]. split; [reflexivity|]. split; [reflexivity|].
    apply (decimal_denotes "502"); [discriminate|reflexivity].
  - vm_compute. repeat split; reflexivity.
Qed.

(** ** Lines: rejection, defaults and health checks *)

Lemma prefix_app (needle after : string) :
  prefix needle (needle ++ after) = true.
Proof.
  induction needle as [|c needle IH]; simpl.
  - destruct after; reflexivity.
  - destruct (ascii_dec c c); [exact IH|congruence].
Qed.

Lemma contains_substring (needle before after : string) :
  PyStr.contains needle (before ++ needle ++ after) = true.
Proof.
  induction before as [|c before IH].
  - simpl append. destruct (needle ++ after)%string eqn:E;
      unfold PyStr.contains; fold PyStr.contains;
      rewrite <- E, prefix_app; reflexivity.
  - change ((String c before ++ needle ++ after)%string)
      with (String c (before ++ needle ++ after)).
    unfold PyStr.contains; fold PyStr.contains. rewrite IH.
    apply orb_true_r.
Qed.

Lemma lookup_app (k : string) (items extra : list (string * pyval)) :
  Py.lookup k (items ++ extra)
  = match Py.lookup k items with
    | Some v => Some v
    | None => Py.lookup k extra
    end.
Proof.
  induction items as [|[k' v] items IH]; simpl.
  - reflexivity.
  - destruct (String.eqb k k'); [reflexivity|exact IH].
Qed.

(** A missing field and the field with the default given to [get]. *)
Lemma get_absent_field (items : list (string * pyval)) (field k : string)
    (v d : pyval) :
  Py.lookup field items = None ->
  (k = field -> d = v) ->
  Py.get (PDict (items ++ [(field, v)])) k d = Py.get (PDict items) k d.
Proof.
  intros Habsent Hd. simpl. rewrite lookup_app. simpl.
  destruct (Py.lookup k items) eqn:Hk; [reflexivity|].
  destruct (String.eqb_spec k field) as [E|_]; [|reflexivity].
  rewrite (Hd E). reflexivity.
Qed.

Section Lines.

Variable cfg : config.
Variable json_loads : string -> loads_result.
Variable clock : nat -> float.
Variable network : nat -> response.

Local Abbreviation line_step := (process_line cfg json_loads clock network).
Local Abbreviation log_step := (process_log cfg clock network).

Lemma process_line_undecodable (line : string) (m : machine) :
  json_loads (PyStr.strip line) = JSONDecodeError ->
  line_step line m = (Ok tt, m).
Proof.
  intros H. unfold process_line, parse_log_line. rewrite H. reflexivity.
Qed.

Lemma process_line_falsy (line : string) (v : pyval) (m : machine) :
  json_loads (PyStr.strip line) = Loaded v -> Py.truthy v = false ->
  line_step line m = (Ok tt, m).
Proof.
  intros H Hv. unfold process_line, parse_log_line. rewrite H.
  rewrite bind_lift_ok, Hv. reflexivity.
Qed.

Lemma process_line_truthy (line : string) (v : pyval) (m : machine) :
  json_loads (PyStr.strip line) = Loaded v -> Py.truthy v = true ->
  line_step line m = log_step v m.
Proof.
  intros H Hv. unfold process_line, parse_log_line. rewrite H.
  rewrite bind_lift_ok, Hv. reflexivity.
Qed.

Lemma extract_fields_default (items : list (string * pyval)) (field : string) :
  In field fields ->
  Py.lookup field items = None ->
  extract_fields (PDict items)
  = extract_fields (PDict (items ++ [(field, default_of field)])).
Proof.
  intros Hin Habsent. unfold extract_fields.
  rewrite !(get_absent_field items field _ (default_of field) _ Habsent);
    [reflexivity| | | | |];
    intros E; subst field;
    repeat (destruct Hin as [Hin|Hin];
            [first [discriminate Hin | reflexivity]|]);
    try contradiction.
Qed.

Lemma extract_fields_all_absent (items : list (string * pyval)) :
  (forall field, In field fields -> Py.lookup field items = None) ->
  extract_fields (PDict items) = Ok (Some default_record).
Proof.
  intros H. unfold extract_fields, Py.get.
  rewrite !H by (simpl; auto 6). reflexivity.
Qed.

(** C8, as the code has it: a line on which [json.loads] raises
    [JSONDecodeError], or that decodes to a value that counts as false, is
    dropped without an exception, an alert or a change of state; a line
    that decodes to an object with at least one member is processed, a
    field that it lacks being read as its default (the empty string for
    pool, request, upstream_status and time, zero for status), and
    without any of the fields the record with the defaults goes into the
    window. *)
Theorem parser_containment_and_defaults (line : string) (m : machine) :
  let decoded := json_loads (PyStr.strip line) in
  (decoded = JSONDecodeError -> line_step line m = (Ok tt, m))
  /\ (forall v, decoded = Loaded v -> Py.truthy v = false ->
        line_step line m = (Ok tt, m))
  /\ (forall items, decoded = Loaded (PDict items) -> items <> [] ->
        line_step line m = log_step (PDict items) m
        /\ (forall field, In field fields -> Py.lookup field items = None ->
              extract_fields (PDict items)
              = extract_fields (PDict (items ++ [(field, default_of field)])))
        /\ ((forall field, In field fields -> Py.lookup field items = None) ->
              line_step line m
              = track_request cfg clock network default_record m)).
Proof.
  intros decoded. split; [|split].
  - apply process_line_undecodable.
  - intros v Hd Hv. apply (process_line_falsy line v m Hd Hv).
  - intros items Hd Hne.
    assert (Hstep : line_step line m = log_step (PDict items) m).
    { apply process_line_truthy; [exact Hd|]. destruct items; [congruence|reflexivity]. }
    split; [exact Hstep|]. split.
    + intros field. apply extract_fields_default.
    + intros Hall. rewrite Hstep. unfold process_log.
      rewrite (extract_fields_all_absent items Hall). reflexivity.
Qed.

(** C9: a record whose request field contains [nginx-health] or
    [healthz] is dropped before the window: the window, [last_pool], both
    alert times and the alerts sent stay as they are, whatever the pool
    and the statuses of the record. *)
Theorem health_check_frame
    (line : string) (log : pyval) (request : string) (m : machine) :
  json_loads (PyStr.strip line) = Loaded log ->
  Py.get log "request" (PStr "") = Ok (PStr request) ->
  (exists before after, request = (before ++ "nginx-health" ++ after)%string)
  \/ (exists before after, request = (before ++ "healthz" ++ after)%string) ->
  log_step log m = (Ok tt, m) /\ line_step line m = (Ok tt, m).
Proof.
  intros Hdecoded Hrequest Hmarker.
  assert (Hhealth : is_health_check (PStr request) = Ok true).
  { unfold is_health_check. simpl.
    destruct Hmarker as [(b & a & ->)|(b & a & ->)].
    - rewrite contains_substring. reflexivity.
    - rewrite (contains_substring "healthz").
      destruct (PyStr.contains "nginx-health" _); reflexivity. }
  assert (Hlog : log_step log m = (Ok tt, m)).
  { unfold process_log, extract_fields.
    destruct log as [| | | | | |items]; try discriminate Hrequest.
    rewrite Hrequest. unfold Py.get.
    destruct (Py.lookup "pool" items), (Py.lookup "status" items),
      (Py.lookup "upstream_status" items);
      simpl res_bind; rewrite Hhealth; reflexivity. }
  split; [exact Hlog|].
  destruct (Py.truthy log) eqn:Ht.
  - rewrite (process_line_truthy line log m Hdecoded Ht). exact Hlog.
  - apply (process_line_falsy line log m Hdecoded Ht).
Qed.

End Lines.

(** The line [{}] decodes, to the empty dict.  With the defaults for its
    fields it would give the default record, which entered in the window
    makes it one longer; the loop drops the line instead. *)
Lemma empty_object_is_rejected :
  let cfg := Sample.with_webhook false in
  Sample.json_loads (PyStr.strip "{}") = Loaded (PDict [])
  /\ extract_fields (PDict []) = Ok (Some default_record)
  /\ request_window
       (snd (track_request cfg Sample.clock Sample.network_ok default_record
               initial)) = [default_record]
  /\ process_line cfg Sample.json_loads Sample.clock Sample.network_ok "{}"
       initial = (Ok tt, initial)
  /\ request_window initial = [].
Proof. vm_compute. repeat split; reflexivity. Qed.

(** An object without any of the fields gives the default record. *)
Lemma parser_containment_and_defaults_witness :
  let cfg := Sample.with_webhook false in
  request_window
    (snd (process_line cfg Sample.json_loads Sample.clock Sample.network_ok
            Sample.bare_line initial)) = [default_record]
  /\ process_line cfg Sample.json_loads Sample.clock Sample.network_ok
       "not json" initial = (Ok tt, initial).
Proof.
  intros cfg.
  destruct (parser_containment_and_defaults cfg Sample.json_loads Sample.clock
              Sample.network_ok Sample.bare_line initial)
    as (_ & _ & Hobject).
  destruct (Hobject [("msg", PStr "hello")] eq_refl) as (_ & _ & Hdefaults);
    [discriminate|].
  destruct (parser_containment_and_defaults cfg Sample.json_loads Sample.clock
              Sample.network_ok "not json" initial) as (Hreject & _).
  split.
  - rewrite Hdefaults; [reflexivity|].
    intros field Hin. simpl in Hin.
    repeat (destruct Hin as [<-|Hin]; [reflexivity|]). contradiction.
  - apply Hreject. reflexivity.
Defined.

(** A health check that reports green and a 502 changes nothing. *)
Lemma health_check_frame_witness :
  process_line (Sample.with_webhook false) Sample.json_loads Sample.clock
    Sample.network_ok Sample.health_line (Sample.tracking "blue" [])
  = (Ok tt, Sample.tracking "blue" []).
Proof.
  apply (health_check_frame (Sample.with_webhook false) Sample.json_loads
           Sample.clock Sample.network_ok Sample.health_line
           Sample.health_log "GET /healthz HTTP/1.1"
           (Sample.tracking "blue" []) eq_refl eq_refl).
  right. exists "GET /"%string, " HTTP/1.1"%string. reflexivity.
Defined.

(** ** The two loops over the lines read *)


Section Loops.

Variable cfg : config.
Variable json_loads : string -> loads_result.
Variable clock : nat -> float.
Variable network : nat -> response.
Variable encoding : codec.

Local Abbreviation line_step := (process_line cfg json_loads clock network).

Lemma check_error_rate_frame (m : machine) :
  let m' := snd (check_error_rate cfg clock network m) in
  request_window m' = request_window m
  /\ (List.length (alerts m') <= List.length (alerts m) + 1)%nat.
Proof.
  destruct (Nat.lt_ge_cases (List.length (request_window m)) 10) as [Hs|Hl].
  - rewrite check_error_rate_small by exact Hs. simpl. split; [reflexivity|lia].
  - destruct (PrimFloat.ltb (ERROR_RATE_THRESHOLD cfg)
                (error_rate_of (count_errors (request_window m))
                   (List.length (request_window m)))) eqn:Hb.
    + destruct (check_error_rate_breach cfg clock network m Hl Hb)
        as (m' & Hrun & _ & Hw & _ & Hcool).
      rewrite Hrun. simpl. split; [exact Hw|].
      destruct (cooldown_elapsed cfg _ _).
      * destruct Hcool as [(older & newest & _ & Ha) _].
        rewrite Ha, length_app. simpl. lia.
      * destruct Hcool as [Ha _]. rewrite Ha. lia.
    + rewrite check_error_rate_below by exact Hb. simpl.
      split; [reflexivity|lia].
Qed.


(** A line is dropped, raises before anything is done, or is tracked. *)
Lemma process_line_cases (line : string) (m : machine) :
  line_step line m = (Ok tt, m)
  \/ (exists e,
        line_step line m = (Raise e, m)
        /\ (parse_log_line json_loads line = Raise e
            \/ exists log,
                 parse_log_line json_loads line = Ok log
                 /\ Py.truthy log = true
                 /\ extract_fields log = Raise e))
  \/ (exists log info,
        parse_log_line json_loads line = Ok log
        /\ Py.truthy log = true
        /\ extract_fields log = Ok (Some info)
        /\ line_step line m = track_request cfg clock network info m).
Proof.
  unfold process_line.
  destruct (parse_log_line json_loads line) as [log|e] eqn:Hparse.
  - rewrite bind_lift_ok.
    destruct (Py.truthy log) eqn:Ht; simpl; [|left; reflexivity].
    unfold process_log, bind, lift.
    destruct (extract_fields log) as [[info|]|e] eqn:He.
    + right. right. exists log, info. auto.
    + left. reflexivity.
    + right. left. exists e. split; [reflexivity|].
      right. exists log. auto.
  - right. left. exists e. split; [reflexivity|]. left. reflexivity.
Qed.


(** The lines on which [json.loads] raises nothing but [JSONDecodeError]. *)
Local Abbreviation decodes_or_fails line :=
  (forall e, json_loads (PyStr.strip line) <> LoadsRaises e).

Lemma first_loop_body_cases (line : string) (m : machine) :
  first_loop_body json_loads line m
  = match json_loads (PyStr.strip line) with
    | LoadsRaises e => (Raise e, m)
    | _ => (Ok tt, m)
    end.
Proof.
  unfold first_loop_body, parse_log_line, bind, lift.
  destruct (json_loads (PyStr.strip line)) as [v| |e]; simpl;
    [destruct (negb (Py.truthy v))| |]; reflexivity.
Qed.

(** The first loop changes nothing; it returns when [json.loads] raises
    nothing but [JSONDecodeError], and else raises what [json.loads]
    raises first. *)
Lemma first_loop_machine (lines : list string) (m : machine) :
  snd (for_each (first_loop_body json_loads) lines m) = m.
Proof.
  induction lines as [|line lines IH]; simpl; [reflexivity|].
  unfold bind. rewrite first_loop_body_cases.
  destruct (json_loads (PyStr.strip line)); try exact IH. reflexivity.
Qed.

Lemma first_loop_returns (lines : list string) (m : machine) :
  Forall (fun line => decodes_or_fails line) lines ->
  for_each (first_loop_body json_loads) lines m = (Ok tt, m).
Proof.
  induction 1 as [|line lines Hline _ IH]; simpl; [reflexivity|].
  unfold bind. rewrite first_loop_body_cases.
  destruct (json_loads (PyStr.strip line)) as [v| |e]; try exact IH.
  exfalso. apply (Hline e). reflexivity.
Qed.

Lemma first_loop_raises
    (before after : list string) (line : string) (e : exn) (m : machine) :
  Forall (fun line => decodes_or_fails line) before ->
  json_loads (PyStr.strip line) = LoadsRaises e ->
  for_each (first_loop_body json_loads) (before ++ line :: after) m
  = (Raise e, m).
Proof.
  intros Hbefore Hline. rewrite for_each_app. unfold bind.
  rewrite (first_loop_returns before m Hbefore). simpl.
  unfold bind. rewrite first_loop_body_cases, Hline. reflexivity.
Qed.

Lemma process_lines_machine (lines : list string) (m : machine) :
  snd (process_lines cfg json_loads clock network lines m) = m
  \/ process_lines cfg json_loads clock network lines m
     = for_each line_step lines m.
Proof.
  unfold process_lines, bind.
  pose proof (first_loop_machine lines m) as Hm.
  destruct (for_each (first_loop_body json_loads) lines m) as [[[]|e] m1];
    simpl in Hm; subst m1; [right|left]; reflexivity.
Qed.


(** ** The tail loop *)

Local Abbreviation poll_step :=
  (poll cfg json_loads clock network encoding).

Lemma drop_behind (content : string) (position : nat) :
  (String.length content <= position)%nat ->
  PyStr.drop position content = EmptyString.
Proof.
  revert position. induction content as [|c content IH]; intros position H.
  - destruct position; reflexivity.
  - destruct position as [|position]; simpl in H; [lia|].
    simpl. apply IH. lia.
Qed.

(** The offset after a poll: the end of the file when the lines are read,
    unless it is behind the offset already, and the old offset when the
    file cannot be opened or decoded. *)
Lemma poll_position (file : option string) (last_position : nat) (m : machine) :
  fst (poll_step file last_position m)
  = Ok match file with
       | Some content =>
           match read_new_lines encoding content last_position with
           | Ok _ => Nat.max last_position (String.length content)
           | Raise _ => last_position
           end
       | None => last_position
       end.
Proof.
  destruct file as [content|]; [|reflexivity].
  unfold poll, read_new_lines.
  destruct (decode encoding (PyStr.drop last_position content));
    reflexivity.
Qed.

Lemma read_behind_the_end (content : string) (position : nat) :
  (String.length content <= position)%nat ->
  read_new_lines encoding content position = Ok ([], position).
Proof.
  intros H. unfold read_new_lines.
  rewrite drop_behind by exact H. rewrite decode_empty. simpl.
  rewrite Nat.max_l by exact H. reflexivity.
Qed.

(** C4, as the code has it: no poll moves the read offset back.  On a
    file that is shorter than the offset, the poll reads no line, raises
    nothing and leaves the offset and the machine as they are; whatever
    the file, the offset after a poll is not below the offset before. *)
Theorem offset_never_rewinds
    (content : string) (last_position : nat) (m : machine) :
  (String.length content < last_position)%nat ->
  poll_step (Some content) last_position m = (Ok last_position, m)
  /\ forall file m0,
       exists position,
         fst (poll_step file last_position m0) = Ok position
         /\ (last_position <= position)%nat.
Proof.
  intros Hshort. split.
  - unfold poll. rewrite read_behind_the_end by lia. reflexivity.
  - intros file m0. rewrite poll_position. eexists. split; [reflexivity|].
    destruct file as [c|]; [|lia].
    destruct (read_new_lines encoding c last_position); lia.
Qed.

End Loops.



(** After a rotation the new file holds one line and is shorter than the
    offset 500 reached in the old file: the offset stays 500, not 0, and
    the line is not read; read from 0 it would enter the window. *)
Lemma rotation_is_not_detected :
  let cfg := Sample.with_webhook false in
  let content := (Sample.blue_line ++ Sample.nl)%string in
  let run := poll cfg Sample.json_loads Sample.clock Sample.network_ok
               Sample.ascii (Some content) in
  (String.length content < 500)%nat
  /\ run 500%nat initial = (Ok 500%nat, initial)
  /\ List.length (request_window (snd (run 0%nat initial))) = 1%nat.
Proof. vm_compute. repeat split; lia. Qed.

Lemma offset_never_rewinds_witness :
  let content := (Sample.blue_line ++ Sample.nl)%string in
  poll (Sample.with_webhook false) Sample.json_loads Sample.clock
    Sample.network_ok Sample.ascii (Some content) 500 initial
  = (Ok 500%nat, initial).
Proof.
  intros content.
  apply (offset_never_rewinds (Sample.with_webhook false) Sample.json_loads
           Sample.clock Sample.network_ok Sample.ascii content 500 initial).
  vm_compute. lia.
Defined.

(** C5 on the code: the position of the tail loop is 0 after the existing
    lines are skipped, whatever the file holds, so a line that is in the
    file when the watcher starts is read by the first poll, enters the
    window and sets the tracked pool. *)
Theorem existing_lines_are_processed :
  (forall cfg json_loads clock network encoding at_start files,
     tail_log_file cfg json_loads clock network encoding at_start files
     = poll_all cfg json_loads clock network encoding files 0)
  /\ let cfg := Sample.with_webhook false in
     let existing := (Sample.green_line ++ Sample.nl)%string in
     let run := tail_log_file cfg Sample.json_loads Sample.clock
                  Sample.network_ok Sample.ascii (Some existing)
                  [Some existing] initial in
     fst run = Ok (String.length existing)
     /\ request_window (snd run)
        = [{| ri_pool := PStr "green"; ri_status := PInt 0;
              ri_is_error := true; ri_time := PStr "" |}]
     /\ last_pool (snd run) = PStr "green".
Proof.
  split.
  - intros cfg json_loads clock network encoding at_start files. reflexivity.
  - vm_compute. repeat split; reflexivity.
Qed.

(** * Further properties of the watcher *)

(** ** The notifier and the detectors, step by step *)

Section Steps.

Variable cfg : config.
Variable clock : nat -> float.
Variable network : nat -> response.

Local Abbreviation send := (send_slack_alert cfg clock network).

(** Without a webhook, and for a failover alert in maintenance mode,
    [send_slack_alert] returns [False] at once. *)
Lemma send_slack_alert_quiet (msg : message) (kind : string) (m : machine) :
  SLACK_WEBHOOK_URL cfg = ""
  \/ (MAINTENANCE_MODE cfg && String.eqb kind "failover") = true ->
  send msg kind m = (Ok false, log_alert (kind, msg) m).
Proof.
  intros H. unfold send_slack_alert. rewrite bind_modify.
  destruct (String.eqb_spec (SLACK_WEBHOOK_URL cfg) "") as [E|N];
    [reflexivity|].
  destruct H as [H|H]; [contradiction|]. rewrite H. reflexivity.
Qed.

Lemma send_slack_alert_returns (msg : message) (kind : string) (m : machine) :
  send msg kind m = (Ok (match fst (send msg kind m) with
                         | Ok b => b
                         | Raise _ => false
                         end), snd (send msg kind m)).
Proof.
  destruct (send_slack_alert_effect cfg clock network msg kind m)
    as (d & m' & H & _).
  rewrite H. reflexivity.
Qed.

(** The machine after a detected pool change. *)
Lemma check_failover_change_eq (p : pyval) (m : machine) :
  let now := clock (ticks m) in
  last_pool m <> PNone -> Py.ne p (last_pool m) = true ->
  check_failover cfg clock network p m
  = (Ok tt,
     set_last_pool p
       (if cooldown_elapsed cfg now (last_failover_alert m)
        then set_last_failover_alert now
               (snd (send (FailoverDetected (last_pool m) p) "failover"
                       (tick m)))
        else tick m)).
Proof.
  intros now Hn Hne. unfold check_failover. rewrite bind_read.
  assert (Hbody :
    (now0 <- time_time clock ;;
     last <- read last_failover_alert ;;
     (if cooldown_elapsed cfg now0 last
      then send (FailoverDetected (last_pool m) p) "failover" ;;
           modify (set_last_failover_alert now0)
      else ret tt) ;;
     modify (set_last_pool p)) m
    = (Ok tt,
       set_last_pool p
         (if cooldown_elapsed cfg now (last_failover_alert m)
          then set_last_failover_alert now
                 (snd (send (FailoverDetected (last_pool m) p) "failover"
                         (tick m)))
          else tick m))).
  { rewrite bind_time_time, bind_read.
    change (last_failover_alert (tick m)) with (last_failover_alert m).
    fold now. destruct (cooldown_elapsed cfg now (last_failover_alert m)).
    - unfold bind. rewrite send_slack_alert_returns. reflexivity.
    - reflexivity. }
  destruct (last_pool m) eqn:E; try congruence; rewrite Hne; exact Hbody.
Qed.

(** The machine after an error rate over the threshold. *)
Lemma check_error_rate_breach_eq (m : machine) :
  let w := request_window m in
  let rate := error_rate_of (count_errors w) (List.length w) in
  let now := clock (ticks m) in
  (10 <= List.length w)%nat ->
  PrimFloat.ltb (ERROR_RATE_THRESHOLD cfg) rate = true ->
  exists older newest,
    w = older ++ [newest]
    /\ check_error_rate cfg clock network m
       = (Ok tt,
          if cooldown_elapsed cfg now (last_error_rate_alert m)
          then set_last_error_rate_alert now
                 (snd (send (HighErrorRate rate (count_errors w)
                               (List.length w) (ri_pool newest))
                         "error" (tick m)))
          else tick m).
Proof.
  intros w rate now Hlen Hbreach.
  destruct (exists_last (l := w)) as (older & newest & Hw).
  { intros E. rewrite E in Hlen. simpl in Hlen. lia. }
  exists older, newest. split; [exact Hw|].
  unfold check_error_rate. rewrite bind_read.
  apply Nat.ltb_ge in Hlen. fold w. rewrite Hlen. fold rate. rewrite Hbreach.
  rewrite bind_time_time, bind_read.
  change (last_error_rate_alert (tick m)) with (last_error_rate_alert m).
  fold now. destruct (cooldown_elapsed cfg now (last_error_rate_alert m)).
  - replace (window_last w) with (Ok newest)
      by (rewrite Hw; symmetry; apply window_last_snoc).
    rewrite bind_lift_ok. unfold bind.
    rewrite send_slack_alert_returns. reflexivity.
  - reflexivity.
Qed.

Lemma check_error_rate_returns (m : machine) :
  fst (check_error_rate cfg clock network m) = Ok tt.
Proof.
  destruct (Nat.lt_ge_cases (List.length (request_window m)) 10) as [Hs|Hl].
  - rewrite check_error_rate_small by exact Hs. reflexivity.
  - destruct (PrimFloat.ltb (ERROR_RATE_THRESHOLD cfg)
                (error_rate_of (count_errors (request_window m))
                   (List.length (request_window m)))) eqn:Hb.
    + destruct (check_error_rate_breach cfg clock network m Hl Hb)
        as (m' & H & _).
      rewrite H. reflexivity.
    + rewrite check_error_rate_below by exact Hb. reflexivity.
Qed.

(** Tracking a record never raises: the look at the newest record of the
    window cannot fail and no failure of the webhook comes back. *)
Lemma track_request_returns (info : request_info) (m : machine) :
  fst (track_request cfg clock network info m) = Ok tt.
Proof.
  unfold track_request. rewrite bind_modify.
  set (m1 := set_request_window _ m). unfold bind.
  destruct (Py.truthy (ri_pool info)).
  - pose proof (check_failover_returns cfg clock network (ri_pool info) m1) as H.
    destruct (check_failover cfg clock network (ri_pool info) m1) as [r m2].
    simpl in H. subst r. apply check_error_rate_returns.
  - apply check_error_rate_returns.
Qed.

(** X2: [send_slack_alert] returns [True] exactly when a webhook is
    configured, the alert is not a failover alert in maintenance mode, and
    the webhook answers 200; it never raises and posts at most once. *)
Theorem delivery_result (msg : message) (kind : string) (m : machine) :
  let r := send msg kind m in
  (fst r = Ok true <->
     SLACK_WEBHOOK_URL cfg <> ""
     /\ (MAINTENANCE_MODE cfg && String.eqb kind "failover") = false
     /\ network (List.length (posts m)) = StatusCode 200)
  /\ (exists delivered, fst r = Ok delivered)
  /\ (List.length (posts (snd r)) <= List.length (posts m) + 1)%nat.
Proof.
  intros r. unfold r.
  destruct (String.eqb_spec (SLACK_WEBHOOK_URL cfg) "") as [E|N].
  { rewrite send_slack_alert_quiet by (left; exact E). simpl.
    split; [|split; [eexists; reflexivity|lia]].
    split; [discriminate|]. intros [H _]. contradiction. }
  destruct (MAINTENANCE_MODE cfg && String.eqb kind "failover") eqn:Hm.
  { rewrite send_slack_alert_quiet by (right; exact Hm). simpl.
    split; [|split; [eexists; reflexivity|lia]].
    split; [discriminate|]. intros (_ & H & _). discriminate H. }
  rewrite (send_slack_alert_posts clock network cfg msg kind m N Hm). simpl.
  split; [|split; [eexists; reflexivity|rewrite length_app; simpl; lia]].
  destruct (network (List.length (posts m))) as [code|].
  - split.
    + intros H. injection H as H. apply Z.eqb_eq in H. subst code. auto.
    + intros (_ & _ & H). injection H as ->. reflexivity.
  - split; [discriminate|]. intros (_ & _ & H). discriminate H.
Qed.

(** X3: an alert that is not sent out, for want of a webhook or because
    of maintenance mode, still starts the cooldown of its kind: the
    detection is recorded as an alert, nothing is posted, and the time of
    the detection becomes the last-alert time. *)
Theorem unsent_alert_starts_cooldown (d : detection) (m : machine) :
  let k := kind_of d in
  let now := clock (ticks m) in
  let m' := snd (detector cfg clock network d m) in
  SLACK_WEBHOOK_URL cfg = ""
  \/ (MAINTENANCE_MODE cfg = true /\ k = Failover) ->
  detects cfg d m ->
  cooldown_elapsed cfg now (last_alert k m) = true ->
  dispatched k m m' /\ posts m' = posts m /\ last_alert k m' = now.
Proof.
  intros k now m' Hquiet Hd Hcool. unfold m'.
  destruct d as [p|]; destruct Hd as [H1 H2]; simpl in k; subst k;
    simpl in Hcool; simpl detector.
  - rewrite (check_failover_change_eq p m H1 H2). fold now. rewrite Hcool.
    rewrite send_slack_alert_quiet.
    + simpl. split; [eexists; reflexivity|]. split; reflexivity.
    + destruct Hquiet as [E|[E _]]; [left; exact E|right].
      rewrite E. reflexivity.
  - destruct (check_error_rate_breach_eq m H1 H2) as (older & newest & _ & Hrun).
    rewrite Hrun. fold now. rewrite Hcool.
    rewrite send_slack_alert_quiet.
    + simpl. split; [eexists; reflexivity|]. split; reflexivity.
    + destruct Hquiet as [E|[_ E]]; [left; exact E|discriminate E].
Qed.

End Steps.

(** In maintenance mode the failover to green posts nothing and the
    cooldown runs from the time of the failover. *)
Lemma unsent_alert_starts_cooldown_witness :
  let m := Sample.tracking "blue" [] in
  let m' := snd (check_failover (Sample.with_webhook true) Sample.clock
                   Sample.network_ok (PStr "green") m) in
  dispatched Failover m m'
  /\ posts m' = []
  /\ last_failover_alert m' = Sample.clock 0.
Proof.
  intros m m'.
  apply (unsent_alert_starts_cooldown (Sample.with_webhook true) Sample.clock
           Sample.network_ok (PoolChange (PStr "green")) m).
  - right. split; reflexivity.
  - split; [discriminate|reflexivity].
  - vm_compute. reflexivity.
Defined.

(** ** Whole runs: what every line, batch and poll preserves *)

Lemma for_each_preserves {A : Type} (P : machine -> Prop) (body : A -> M unit)
    (l : list A) (m : machine) :
  (forall x m0, P m0 -> P (snd (body x m0))) ->
  P m -> P (snd (for_each body l m)).
Proof.
  intros Hbody. revert m. induction l as [|x l IH]; intros m Hm; simpl.
  - exact Hm.
  - unfold bind. specialize (Hbody x m Hm).
    destruct (body x m) as [[[]|e] m1]; simpl in Hbody.
    + apply IH, Hbody.
    + exact Hbody.
Qed.

Section Runs.

Variable cfg : config.
Variable json_loads : string -> loads_result.
Variable clock : nat -> float.
Variable network : nat -> response.
Variable encoding : codec.

Local Abbreviation line_step := (process_line cfg json_loads clock network).
Local Abbreviation track := (track_request cfg clock network).
Local Abbreviation poll_step :=
  (poll cfg json_loads clock network encoding).
Local Abbreviation run := (poll_all cfg json_loads clock network encoding).

(** The machine after a poll: the one before, or the one that the
    second loop makes of it on the lines read. *)
Lemma poll_machine (file : option string) (last_position : nat) (m : machine) :
  snd (poll_step file last_position m) = m
  \/ exists lines,
       snd (poll_step file last_position m) = snd (for_each line_step lines m).
Proof.
  destruct file as [content|]; [|left; reflexivity].
  unfold poll.
  destruct (read_new_lines encoding content last_position)
    as [[lines position]|e]; [|left; reflexivity].
  unfold bind, try_except, ret. simpl.
  destruct (process_lines_machine cfg json_loads clock network lines m)
    as [H|H].
  - left. exact H.
  - right. exists lines. rewrite H. reflexivity.
Qed.

Lemma poll_returns (file : option string) (last_position : nat) (m : machine) :
  exists position,
    poll_step file last_position m
    = (Ok position, snd (poll_step file last_position m)).
Proof.
  destruct file as [content|]; [|eexists; reflexivity].
  unfold poll.
  destruct (read_new_lines encoding content last_position)
    as [[lines position]|e]; eexists; reflexivity.
Qed.

(** What tracking a record preserves, every run of the loop preserves. *)
Lemma run_preserves (P : machine -> Prop) :
  (forall info m0, P m0 -> P (snd (track info m0))) ->
  forall files last_position m,
    P m -> P (snd (run files last_position m)).
Proof.
  intros Htrack.
  assert (Hline : forall line m0, P m0 -> P (snd (line_step line m0))).
  { intros line m0 Hm0.
    destruct (process_line_cases cfg json_loads clock network line m0)
      as [H|[(e & H & _)|(log & info & _ & _ & _ & H)]]; rewrite H; simpl;
      [exact Hm0|exact Hm0|apply Htrack, Hm0]. }
  induction files as [|file files IH]; intros last_position m Hm; simpl.
  - exact Hm.
  - unfold bind.
    destruct (poll_returns file last_position m) as (position & Hpoll).
    rewrite Hpoll. apply IH.
    destruct (poll_machine file last_position m) as [H|(lines & H)];
      rewrite H; [exact Hm|].
    apply for_each_preserves; assumption.
Qed.

(** The machine after a record is tracked. *)
Lemma track_request_eq (info : request_info) (m : machine) :
  let m1 := set_request_window (window_append cfg info (request_window m)) m in
  let m2 := if Py.truthy (ri_pool info)
            then snd (check_failover cfg clock network (ri_pool info) m1)
            else m1 in
  track info m = check_error_rate cfg clock network m2.
Proof.
  intros m1 m2. unfold track_request. rewrite bind_modify. fold m1.
  unfold bind, m2. destruct (Py.truthy (ri_pool info)); [|reflexivity].
  pose proof (check_failover_returns cfg clock network (ri_pool info) m1) as H.
  destruct (check_failover cfg clock network (ri_pool info) m1) as [r m3].
  simpl in H. subst r. reflexivity.
Qed.

Lemma check_error_rate_window (m : machine) :
  request_window (snd (check_error_rate cfg clock network m))
  = request_window m.
Proof. apply check_error_rate_frame. Qed.

Lemma track_request_window (info : request_info) (m : machine) :
  request_window (snd (track info m))
  = window_append cfg info (request_window m).
Proof.
  rewrite track_request_eq, check_error_rate_window.
  destruct (Py.truthy (ri_pool info)); [|reflexivity].
  destruct (check_failover_frame cfg clock network (ri_pool info)
              (set_request_window
                 (window_append cfg info (request_window m)) m)) as [H _].
  exact H.
Qed.

(** X4: the window never holds more than [WINDOW_SIZE] records, over any
    run of the tail loop, whatever the lines and the state of the file. *)
Theorem window_never_exceeds_size
    (files : list (option string)) (last_position : nat) (m : machine) :
  (List.length (request_window m) <= WINDOW_SIZE cfg)%nat ->
  (List.length (request_window (snd (run files last_position m)))
   <= WINDOW_SIZE cfg)%nat.
Proof.
  apply (run_preserves
           (fun m0 => (List.length (request_window m0) <= WINDOW_SIZE cfg)%nat)).
  intros info m0 H. rewrite track_request_window.
  apply window_append_length, H.
Qed.

Lemma window_append_last_records (r : request_info) (l : list request_info) :
  let size := WINDOW_SIZE cfg in
  window_append cfg r (skipn (List.length l - size) l)
  = skipn (List.length (l ++ [r]) - size) (l ++ [r]).
Proof.
  intros size. unfold window_append. fold size.
  rewrite !length_app, length_skipn. simpl List.length.
  destruct (Nat.le_gt_cases (List.length l) size) as [Hle|Hgt].
  - replace (List.length l - size)%nat with 0%nat by lia. simpl skipn.
    destruct (Nat.ltb_spec size (List.length l - 0 + 1)) as [H|H].
    + replace (List.length l + 1 - size)%nat with 1%nat by lia.
      destruct l; reflexivity.
    + replace (List.length l + 1 - size)%nat with 0%nat by lia. reflexivity.
  - destruct (Nat.ltb_spec size
                (List.length l - (List.length l - size) + 1)) as [H|H];
      [|lia].
    replace (List.length l + 1 - size)%nat
      with (1 + (List.length l - size))%nat by lia.
    rewrite <- skipn_skipn.
    rewrite (skipn_app (List.length l - size) l [r]).
    replace (List.length l - size - List.length l)%nat with 0%nat by lia.
    simpl (skipn 0 [r]).
    destruct (skipn (List.length l - size) l ++ [r]) eqn:E; reflexivity.
Qed.

(** X5: after records are tracked one after the other, the window holds
    the last [WINDOW_SIZE] of the records it held and the new ones, in the
    order of arrival. *)
Theorem window_holds_last_records
    (infos : list request_info) (m : machine) :
  let size := WINDOW_SIZE cfg in
  let all := request_window m ++ infos in
  (List.length (request_window m) <= size)%nat ->
  for_each track infos m = (Ok tt, snd (for_each track infos m))
  /\ request_window (snd (for_each track infos m))
     = skipn (List.length all - size) all.
Proof.
  intros size all Hlen. split.
  - apply for_each_returns. intros; apply track_request_returns.
  - unfold all. clear all. revert m Hlen.
    induction infos as [|info infos IH] using rev_ind; intros m Hlen.
    + simpl. rewrite app_nil_r.
      replace (List.length (request_window m) - size)%nat with 0%nat by lia.
      reflexivity.
    + rewrite for_each_snoc by (intros; apply track_request_returns).
      rewrite track_request_window, (IH m Hlen).
      rewrite window_append_last_records, app_assoc. reflexivity.
Qed.

End Runs.

Lemma window_never_exceeds_size_witness :
  let cfg := Sample.with_webhook false in
  let file := Some (Sample.blue_line ++ Sample.nl ++ Sample.green_line
                    ++ Sample.nl)%string in
  (List.length
     (request_window
        (snd (poll_all cfg Sample.json_loads Sample.clock Sample.network_ok
                Sample.ascii [file] 0 initial))) <= 200)%nat.
Proof.
  intros cfg file.
  apply (window_never_exceeds_size cfg Sample.json_loads Sample.clock
           Sample.network_ok Sample.ascii [file] 0 initial).
  simpl. lia.
Defined.

(** A window of two records takes a third and lets the oldest go. *)
Lemma window_holds_last_records_witness :
  let cfg := {| SLACK_WEBHOOK_URL := ""; ERROR_RATE_THRESHOLD := 2%float;
                WINDOW_SIZE := 2; ALERT_COOLDOWN_SEC := 300;
                LOG_FILE := ""; MAINTENANCE_MODE := false |} in
  let a := Sample.ok_record "blue" in
  let b := Sample.error_record "blue" in
  let c := Sample.ok_record "green" in
  request_window
    (snd (for_each (track_request cfg Sample.clock Sample.network_ok)
            [b; c] (Sample.tracking "blue" [a]))) = [b; c].
Proof.
  intros cfg a b c.
  destruct (window_holds_last_records cfg Sample.clock Sample.network_ok
              [b; c] (Sample.tracking "blue" [a])) as [_ H].
  - simpl. lia.
  - exact H.
Defined.

(** ** The detectors over whole runs *)

Section Detectors.

Variable cfg : config.
Variable json_loads : string -> loads_result.
Variable clock : nat -> float.
Variable network : nat -> response.
Variable encoding : codec.

Local Abbreviation check := (check_failover cfg clock network).
Local Abbreviation track := (track_request cfg clock network).
Local Abbreviation run := (poll_all cfg json_loads clock network encoding).

(** What the failover detector does to the other detector's state. *)
Lemma check_failover_error_side (p : pyval) (m : machine) :
  let m' := snd (check p m) in
  last_error_rate_alert m' = last_error_rate_alert m
  /\ filter is_error_alert (alerts m') = filter is_error_alert (alerts m).
Proof.
  destruct (check_failover_cases cfg clock network p m)
    as [[_ H]|[(_ & _ & H)|[Hn Hne]]].
  - rewrite H. split; reflexivity.
  - rewrite H. split; reflexivity.
  - destruct (check_failover_change cfg clock network p m Hn Hne)
      as (m' & H & _ & _ & Hl & Hcool).
    rewrite H. simpl. split; [exact Hl|].
    destruct (cooldown_elapsed cfg _ _); destruct Hcool as [Ha _]; rewrite Ha;
      [|reflexivity].
    rewrite filter_app. simpl. apply app_nil_r.
Qed.

(** What the error-rate detector does to the failover detector's state. *)
Lemma check_error_rate_failover_side (m : machine) :
  let m' := snd (check_error_rate cfg clock network m) in
  last_pool m' = last_pool m
  /\ last_failover_alert m' = last_failover_alert m
  /\ filter is_failover_alert (alerts m')
     = filter is_failover_alert (alerts m).
Proof.
  destruct (Nat.lt_ge_cases (List.length (request_window m)) 10) as [Hs|Hl].
  - rewrite check_error_rate_small by exact Hs. repeat split; reflexivity.
  - destruct (PrimFloat.ltb (ERROR_RATE_THRESHOLD cfg)
                (error_rate_of (count_errors (request_window m))
                   (List.length (request_window m)))) eqn:Hb.
    + destruct (check_error_rate_breach cfg clock network m Hl Hb)
        as (m' & Hrun & Hp & _ & Hf & Hcool).
      rewrite Hrun. simpl. split; [exact Hp|]. split; [exact Hf|].
      destruct (cooldown_elapsed cfg _ _).
      * destruct Hcool as [(older & newest & _ & Ha) _]. rewrite Ha.
        rewrite filter_app. simpl. apply app_nil_r.
      * destruct Hcool as [Ha _]. rewrite Ha. reflexivity.
    + rewrite check_error_rate_below by exact Hb. repeat split; reflexivity.
Qed.

(** X6: with a [WINDOW_SIZE] below 10 the error-rate detector never
    alerts: over any run of the tail loop no error-rate alert is sent and
    the time of the last error-rate alert stays what it was. *)
Theorem small_window_never_alerts_on_errors
    (files : list (option string)) (last_position : nat) (m : machine) :
  (WINDOW_SIZE cfg < 10)%nat ->
  (List.length (request_window m) <= WINDOW_SIZE cfg)%nat ->
  let m' := snd (run files last_position m) in
  filter is_error_alert (alerts m') = filter is_error_alert (alerts m)
  /\ last_error_rate_alert m' = last_error_rate_alert m.
Proof.
  intros Hsize Hlen m'.
  assert (H : (List.length (request_window m') <= WINDOW_SIZE cfg)%nat
              /\ filter is_error_alert (alerts m')
                 = filter is_error_alert (alerts m)
              /\ last_error_rate_alert m' = last_error_rate_alert m).
  { unfold m'.
    apply (run_preserves cfg json_loads clock network encoding
             (fun m0 =>
                (List.length (request_window m0) <= WINDOW_SIZE cfg)%nat
                /\ filter is_error_alert (alerts m0)
                   = filter is_error_alert (alerts m)
                /\ last_error_rate_alert m0 = last_error_rate_alert m));
      [|repeat split; assumption].
    intros info m0 (Hw & Ha & Ht).
    assert (Hw' : (List.length (window_append cfg info (request_window m0))
                   <= WINDOW_SIZE cfg)%nat)
      by (apply window_append_length, Hw).
    rewrite track_request_eq.
    set (m1 := set_request_window _ m0) in *.
    destruct (Py.truthy (ri_pool info)).
    - destruct (check_failover_frame cfg clock network (ri_pool info) m1)
        as [Hwin _].
      destruct (check_failover_error_side (ri_pool info) m1) as [Hlast Hal].
      rewrite check_error_rate_small by (rewrite Hwin; simpl; lia).
      simpl. rewrite Hwin, Hal, Hlast. simpl. repeat split; assumption.
    - rewrite check_error_rate_small by (simpl; lia).
      simpl. repeat split; assumption. }
  split; apply H.
Qed.

Lemma eq_string_pool (s : string) (v : pyval) :
  Py.ne (PStr s) v = false -> v = PStr s.
Proof.
  unfold Py.ne. intros H. apply negb_false_iff in H.
  destruct v; simpl in H; try discriminate.
  apply String.eqb_eq in H. congruence.
Qed.

Lemma track_request_string_pool (info : request_info) (s : string) (m : machine) :
  ri_pool info = PStr s -> s <> EmptyString ->
  last_pool (snd (track info m)) = PStr s.
Proof.
  intros Hp Hs. rewrite track_request_eq.
  destruct (check_error_rate_failover_side
              (if Py.truthy (ri_pool info)
               then snd (check (ri_pool info)
                           (set_request_window
                              (window_append cfg info (request_window m)) m))
               else set_request_window
                      (window_append cfg info (request_window m)) m))
    as [Hl _].
  rewrite Hl, Hp. clear Hl.
  assert (Ht : Py.truthy (PStr s) = true).
  { simpl. destruct (String.eqb_spec s ""); [contradiction|reflexivity]. }
  rewrite Ht. set (m1 := set_request_window _ m).
  destruct (check_failover_cases cfg clock network (PStr s) m1)
    as [[_ H]|[(_ & Hsame & H)|[Hn Hne]]].
  - rewrite H. reflexivity.
  - rewrite H. simpl. apply eq_string_pool, Hsame.
  - destruct (check_failover_change cfg clock network (PStr s) m1 Hn Hne)
      as (m' & H & Hlp & _).
    rewrite H. exact Hlp.
Qed.

Lemma track_request_without_pool (info : request_info) (m : machine) :
  Py.truthy (ri_pool info) = false ->
  last_pool (snd (track info m)) = last_pool m.
Proof.
  intros Hp. rewrite track_request_eq, Hp.
  apply (check_error_rate_failover_side
           (set_request_window (window_append cfg info (request_window m)) m)).
Qed.

(** X7: a record without a pool, or with an empty one, is counted in the
    window but the failover detector does not see it: the tracked pool,
    the time of the last failover alert and the failover alerts sent stay
    as they are. *)
Theorem empty_pool_is_ignored (info : request_info) (m : machine) :
  Py.truthy (ri_pool info) = false ->
  let m' := snd (track info m) in
  request_window m' = window_append cfg info (request_window m)
  /\ last_pool m' = last_pool m
  /\ last_failover_alert m' = last_failover_alert m
  /\ filter is_failover_alert (alerts m')
     = filter is_failover_alert (alerts m).
Proof.
  intros Hp m'. unfold m'.
  split; [apply track_request_window|].
  rewrite track_request_eq, Hp.
  apply (check_error_rate_failover_side
           (set_request_window (window_append cfg info (request_window m)) m)).
Qed.

(** X8: the tracked pool is the pool of the latest record that has one:
    after any records, a record of pool [s] and then only records without
    a pool, [last_pool] is [s]. *)
Theorem last_pool_is_latest_pool
    (earlier later : list request_info) (info : request_info) (s : string)
    (m : machine) :
  ri_pool info = PStr s -> s <> EmptyString ->
  Forall (fun i => Py.truthy (ri_pool i) = false) later ->
  last_pool (snd (for_each track (earlier ++ info :: later) m)) = PStr s.
Proof.
  intros Hp Hs Hlater.
  assert (Hret : forall i m0, fst (track i m0) = Ok tt)
    by (intros; apply track_request_returns).
  rewrite for_each_app.
  rewrite (bind_ok _ _ _ _ _ (for_each_returns track earlier m Hret)).
  set (m1 := snd (for_each track earlier m)). simpl for_each. unfold bind.
  pose proof (Hret info m1) as Hr.
  pose proof (track_request_string_pool info s m1 Hp Hs) as Hl.
  destruct (track info m1) as [r m2]. simpl in Hr, Hl. subst r.
  clear Hp. revert m2 Hl. induction Hlater as [|i later Hi _ IH]; intros m2 Hl.
  - exact Hl.
  - simpl. unfold bind. pose proof (Hret i m2) as Hr.
    pose proof (track_request_without_pool i m2 Hi) as Hsame.
    destruct (track i m2) as [r m3]. simpl in Hr, Hsame. subst r.
    apply IH. congruence.
Qed.

(** X9: while the pool of the records is the tracked pool, the failover
    detector does nothing at all: no alert, no reading of the clock, no
    change of the cooldown. *)
Theorem steady_pool_never_alerts (s : string) (n : nat) (m : machine) :
  last_pool m = PStr s ->
  for_each check (repeat (PStr s) n) m = (Ok tt, m).
Proof.
  intros Hl. induction n as [|n IH]; simpl; [reflexivity|].
  unfold bind. rewrite check_failover_same.
  - exact IH.
  - rewrite Hl. discriminate.
  - rewrite Hl. unfold Py.ne. simpl. rewrite String.eqb_refl. reflexivity.
Qed.

End Detectors.

Lemma small_window_never_alerts_on_errors_witness :
  let cfg := {| SLACK_WEBHOOK_URL := ""; ERROR_RATE_THRESHOLD := 2%float;
                WINDOW_SIZE := 5; ALERT_COOLDOWN_SEC := 300;
                LOG_FILE := ""; MAINTENANCE_MODE := false |} in
  let file := Some (Sample.green_line ++ Sample.nl)%string in
  filter is_error_alert
    (alerts (snd (poll_all cfg Sample.json_loads Sample.clock
                    Sample.network_ok Sample.ascii [file] 0 initial))) = [].
Proof.
  intros cfg file.
  apply (small_window_never_alerts_on_errors cfg Sample.json_loads
           Sample.clock Sample.network_ok Sample.ascii [file] 0 initial);
    simpl; lia.
Defined.

Lemma empty_pool_is_ignored_witness :
  last_pool
    (snd (track_request (Sample.with_webhook false) Sample.clock
            Sample.network_ok default_record (Sample.tracking "blue" [])))
  = PStr "blue".
Proof.
  apply (empty_pool_is_ignored (Sample.with_webhook false) Sample.clock
           Sample.network_ok default_record (Sample.tracking "blue" [])).
  reflexivity.
Defined.

Lemma last_pool_is_latest_pool_witness :
  last_pool
    (snd (for_each
            (track_request (Sample.with_webhook false) Sample.clock
               Sample.network_ok)
            ([Sample.ok_record "blue"] ++ Sample.ok_record "green"
             :: [default_record]) initial))
  = PStr "green".
Proof.
  apply (last_pool_is_latest_pool (Sample.with_webhook false) Sample.clock
           Sample.network_ok [Sample.ok_record "blue"] [default_record]
           (Sample.ok_record "green") "green" initial).
  - reflexivity.
  - discriminate.
  - repeat constructor.
Defined.

Lemma steady_pool_never_alerts_witness :
  for_each (check_failover (Sample.with_webhook false) Sample.clock
              Sample.network_ok)
    (repeat (PStr "blue") 3) (Sample.tracking "blue" [])
  = (Ok tt, Sample.tracking "blue" []).
Proof.
  apply (steady_pool_never_alerts (Sample.with_webhook false) Sample.clock
           Sample.network_ok "blue" 3 (Sample.tracking "blue" [])).
  reflexivity.
Defined.

(** ** Without a webhook *)

Section NoWebhook.

Variable cfg : config.
Variable json_loads : string -> loads_result.
Variable clock : nat -> float.
Variable network : nat -> response.
Variable encoding : codec.

Hypothesis no_webhook : SLACK_WEBHOOK_URL cfg = "".

Lemma check_failover_posts_nothing (p : pyval) (m : machine) :
  posts (snd (check_failover cfg clock network p m)) = posts m.
Proof.
  destruct (check_failover_cases cfg clock network p m)
    as [[_ H]|[(_ & _ & H)|[Hn Hne]]].
  - rewrite H. reflexivity.
  - rewrite H. reflexivity.
  - rewrite (check_failover_change_eq cfg clock network p m Hn Hne).
    destruct (cooldown_elapsed cfg _ _); [|reflexivity].
    rewrite send_slack_alert_quiet by (left; exact no_webhook). reflexivity.
Qed.

Lemma check_error_rate_posts_nothing (m : machine) :
  posts (snd (check_error_rate cfg clock network m)) = posts m.
Proof.
  destruct (Nat.lt_ge_cases (List.length (request_window m)) 10) as [Hs|Hl].
  - rewrite check_error_rate_small by exact Hs. reflexivity.
  - destruct (PrimFloat.ltb (ERROR_RATE_THRESHOLD cfg)
                (error_rate_of (count_errors (request_window m))
                   (List.length (request_window m)))) eqn:Hb.
    + destruct (check_error_rate_breach_eq cfg clock network m Hl Hb)
        as (older & newest & _ & Hrun).
      rewrite Hrun. destruct (cooldown_elapsed cfg _ _); [|reflexivity].
      rewrite send_slack_alert_quiet by (left; exact no_webhook). reflexivity.
    + rewrite check_error_rate_below by exact Hb. reflexivity.
Qed.

(** X10: when [SLACK_WEBHOOK_URL] is empty the watcher never calls
    [requests.post], over any run of the tail loop. *)
Theorem no_webhook_never_posts
    (files : list (option string)) (last_position : nat) (m : machine) :
  posts (snd (poll_all cfg json_loads clock network encoding files
                last_position m))
  = posts m.
Proof.
  apply (run_preserves cfg json_loads clock network encoding
           (fun m0 => posts m0 = posts m)); [|reflexivity].
  intros info m0 H. rewrite track_request_eq, check_error_rate_posts_nothing.
  destruct (Py.truthy (ri_pool info)); [|exact H].
  rewrite check_failover_posts_nothing. exact H.
Qed.

End NoWebhook.

(** The default configuration has no webhook: a failover is detected and
    nothing is posted. *)
Lemma no_webhook_never_posts_witness :
  let file := Some (Sample.blue_line ++ Sample.nl ++ Sample.green_line
                    ++ Sample.nl)%string in
  posts (snd (poll_all default_config Sample.json_loads Sample.clock
                Sample.network_ok Sample.ascii [file] 0 initial)) = [].
Proof.
  intros file.
  apply (no_webhook_never_posts default_config Sample.json_loads Sample.clock
           Sample.network_ok Sample.ascii eq_refl [file] 0 initial).
Defined.

(** ** Reading the file *)

Lemma drop_app (old appended : string) :
  PyStr.drop (String.length old) (old ++ appended) = appended.
Proof.
  induction old as [|c old IH]; simpl.
  - destruct appended; reflexivity.
  - exact IH.
Qed.

Lemma string_length_app (s t : string) :
  String.length (s ++ t) = (String.length s + String.length t)%nat.
Proof. induction s as [|c s IH]; simpl; [reflexivity | now rewrite IH]. Qed.

Lemma drop_zero (s : string) : PyStr.drop 0 s = s.
Proof. destruct s; reflexivity. Qed.

Lemma splitlines_empty (s : string) :
  PyStr.splitlines_keepends s = [] -> s = EmptyString.
Proof.
  destruct s as [|c s]; [reflexivity|]. simpl.
  destruct (Ascii.eqb c "010"); [discriminate|].
  destruct (PyStr.splitlines_keepends s); discriminate.
Qed.

(** The lines of a text, put end to end, are the text. *)
Lemma splitlines_concat (s : string) :
  String.concat "" (PyStr.splitlines_keepends s) = s.
Proof.
  induction s as [|c s IH]; [reflexivity|]. simpl PyStr.splitlines_keepends.
  destruct (Ascii.eqb c "010").
  - destruct (PyStr.splitlines_keepends s) as [|h t] eqn:E.
    + apply splitlines_empty in E. subst s. reflexivity.
    + change (String.concat "" (String c "" :: h :: t))
        with (String c (String.concat "" (h :: t))).
      rewrite IH. reflexivity.
  - destruct (PyStr.splitlines_keepends s) as [|h t] eqn:E.
    + apply splitlines_empty in E. subst s. reflexivity.
    + destruct t as [|h' t].
      * simpl in IH. simpl. rewrite IH. reflexivity.
      * change (String.concat "" (String c h :: h' :: t))
          with (String c (String.concat "" (h :: h' :: t))).
        rewrite IH. reflexivity.
Qed.

Lemma lstrip_blank (b : string) :
  PyStr.all_chars PyStr.isspace b = true -> PyStr.lstrip b = EmptyString.
Proof.
  induction b as [|c b IH]; simpl; intros H; [reflexivity|].
  apply andb_true_iff in H. destruct H as [Hc Hb]. rewrite Hc. apply IH, Hb.
Qed.

Lemma lstrip_app (s a : string) :
  PyStr.lstrip (s ++ a)
  = if PyStr.all_chars PyStr.isspace s then PyStr.lstrip a
    else (PyStr.lstrip s ++ a)%string.
Proof.
  induction s as [|c s IH]; simpl; [reflexivity|].
  destruct (PyStr.isspace c); simpl; [exact IH|reflexivity].
Qed.

(** Blanks around a text do not change what [strip] gives. *)
Lemma strip_blanks (b s a : string) :
  PyStr.all_chars PyStr.isspace b = true ->
  PyStr.all_chars PyStr.isspace a = true ->
  PyStr.strip (b ++ s ++ a) = PyStr.strip s.
Proof.
  intros Hb Ha. unfold PyStr.strip.
  rewrite lstrip_blanks by exact Hb. rewrite lstrip_app.
  destruct (PyStr.all_chars PyStr.isspace s) eqn:Hs.
  - rewrite (lstrip_blank a Ha), (lstrip_blank s Hs). reflexivity.
  - apply rstrip_blanks, Ha.
Qed.

Section Reading.

Variable cfg : config.
Variable json_loads : string -> loads_result.
Variable clock : nat -> float.
Variable network : nat -> response.
Variable encoding : codec.

Local Abbreviation line_step := (process_line cfg json_loads clock network).
Local Abbreviation poll_step :=
  (poll cfg json_loads clock network encoding).

Lemma poll_lines
    (content : string) (last_position position : nat) (lines : list string)
    (m : machine) :
  read_new_lines encoding content last_position = Ok (lines, position) ->
  position = Nat.max last_position (String.length content)
  /\ poll_step (Some content) last_position m
     = (Ok position,
        snd (process_lines cfg json_loads clock network lines m)).
Proof.
  intros Hread. unfold poll. rewrite Hread.
  unfold read_new_lines in Hread.
  destruct (decode encoding (PyStr.drop last_position content));
    [|discriminate].
  injection Hread as _ <-. split; reflexivity.
Qed.

Lemma poll_undecodable
    (content : string) (last_position : nat) (e : exn) (m : machine) :
  read_new_lines encoding content last_position = Raise e ->
  poll_step (Some content) last_position m = (Ok last_position, m).
Proof. intros Hread. unfold poll. rewrite Hread. reflexivity. Qed.

Lemma poll_behind_the_end (content : string) (position : nat) (m : machine) :
  (String.length content <= position)%nat ->
  poll_step (Some content) position m = (Ok position, m).
Proof.
  intros H. unfold poll.
  rewrite (read_behind_the_end encoding content position H). reflexivity.
Qed.

(** X11: when text is appended to the file and decodes, the poll that
    starts at the old end reads the appended text and nothing else: its
    lines put end to end are that text (with its line ends translated),
    the machine becomes what a poll of the appended text alone would make
    it, and the offset is the new end of the file.  When the appended
    bytes do not decode, the poll changes nothing and the offset stays at
    the old end. *)
Theorem poll_reads_what_was_appended (old appended : string) (m : machine) :
  let position := String.length old in
  let grown := (old ++ appended)%string in
  (forall text,
     decode encoding appended = Some text ->
     (exists lines,
        read_new_lines encoding grown position
        = Ok (lines, (position + String.length appended)%nat)
        /\ String.concat "" lines = PyStr.translate_newlines text)
     /\ poll_step (Some grown) position m
        = (Ok (position + String.length appended)%nat,
           snd (poll_step (Some appended) 0 m)))
  /\ (decode encoding appended = None ->
      poll_step (Some grown) position m = (Ok position, m)).
Proof.
  intros position grown.
  assert (Hread : read_new_lines encoding grown position
                  = match decode encoding appended with
                    | Some text =>
                        Ok (PyStr.splitlines_keepends
                              (PyStr.translate_newlines text),
                            (position + String.length appended)%nat)
                    | None => Raise UnicodeDecodeError
                    end).
  { unfold read_new_lines, grown, position.
    rewrite drop_app, string_length_app.
    rewrite Nat.max_r by lia. reflexivity. }
  split.
  - intros text Htext. rewrite Htext in Hread. split.
    + eexists. split; [exact Hread|]. apply splitlines_concat.
    + destruct (poll_lines grown position _ _ m Hread) as [_ Hpoll].
      rewrite Hpoll. f_equal.
      assert (Halone : read_new_lines encoding appended 0
                       = Ok (PyStr.splitlines_keepends
                               (PyStr.translate_newlines text),
                             String.length appended)).
      { unfold read_new_lines. rewrite drop_zero, Htext. reflexivity. }
      destruct (poll_lines appended 0 _ _ m Halone) as [_ Hpoll0].
      rewrite Hpoll0. reflexivity.
  - intros Hnone. rewrite Hnone in Hread.
    apply (poll_undecodable grown position _ m Hread).
Qed.

(** X12: after a poll the offset is the larger of the old offset and the
    size of the file when the bytes from the old offset on decode, and
    the old offset when they do not; a further poll of the unchanged file
    from the offset reached changes nothing and leaves the offset where
    it is. *)
Theorem unchanged_file_is_not_read_again
    (content : string) (last_position : nat) (m : machine) :
  let position :=
    match decode encoding (PyStr.drop last_position content) with
    | Some _ => Nat.max last_position (String.length content)
    | None => last_position
    end in
  fst (poll_step (Some content) last_position m) = Ok position
  /\ forall m', poll_step (Some content) position m' = (Ok position, m').
Proof.
  intros position. unfold position. clear position.
  rewrite (poll_position cfg json_loads clock network encoding).
  unfold read_new_lines at 1.
  destruct (decode encoding (PyStr.drop last_position content)) eqn:Hd.
  - split; [reflexivity|]. intros m'. apply poll_behind_the_end. lia.
  - split; [reflexivity|]. intros m'.
    apply (poll_undecodable content last_position UnicodeDecodeError).
    unfold read_new_lines. rewrite Hd. reflexivity.
Qed.

Lemma process_line_raises (line : string) (log : pyval) (e : exn) (m : machine) :
  parse_log_line json_loads line = Ok log ->
  Py.truthy log = true ->
  extract_fields log = Raise e ->
  line_step line m = (Raise e, m).
Proof.
  intros Hp Ht He. unfold process_line. rewrite Hp, bind_lift_ok, Ht. simpl.
  unfold process_log, bind, lift. rewrite He. reflexivity.
Qed.

(** X13: a line that raises takes the lines behind it in the batch with
    it.  When [json.loads] raises nothing but [JSONDecodeError] on the
    batch and the fields of a line raise, the machine is left as the lines
    before made it; when [json.loads] raises something else on a line, the
    first loop stops there and the whole batch is dropped.  Either way the
    offset is already behind the batch and the next poll does not read
    the lines again. *)
Theorem raising_line_drops_the_rest
    (content : string) (last_position position : nat) (m : machine)
    (before rest : list string) (bad : string) (e : exn) :
  read_new_lines encoding content last_position
  = Ok (before ++ bad :: rest, position) ->
  ((Forall (fun line => forall e0,
              json_loads (PyStr.strip line) <> LoadsRaises e0)
      (before ++ bad :: rest) ->
    (exists log,
       parse_log_line json_loads bad = Ok log
       /\ Py.truthy log = true /\ extract_fields log = Raise e) ->
    poll_step (Some content) last_position m
    = (Ok position, snd (for_each line_step before m)))
   /\ (Forall (fun line => forall e0,
                 json_loads (PyStr.strip line) <> LoadsRaises e0) before ->
       json_loads (PyStr.strip bad) = LoadsRaises e ->
       poll_step (Some content) last_position m = (Ok position, m)))
  /\ forall m', poll_step (Some content) position m' = (Ok position, m').
Proof.
  intros Hread.
  destruct (poll_lines content last_position _ _ m Hread) as [Hposition Hpoll].
  rewrite Hpoll. split; [split|].
  - intros Hall (log & Hp & Ht & He). f_equal.
    unfold process_lines, bind.
    rewrite (first_loop_returns json_loads _ m Hall).
    rewrite for_each_app. unfold bind.
    destruct (for_each line_step before m) as [[[]|e'] m1]; [|reflexivity].
    simpl for_each. unfold bind.
    rewrite (process_line_raises bad log e m1 Hp Ht He). reflexivity.
  - intros Hbefore Hbad. f_equal.
    unfold process_lines, bind.
    rewrite (first_loop_raises json_loads before rest bad e m Hbefore Hbad).
    reflexivity.
  - intros m'. apply poll_behind_the_end. lia.
Qed.

(** X14: blanks before and after a line, such as the line end that
    [readlines] keeps, do not change what the line does. *)
Theorem blanks_around_a_line_do_not_matter
    (before line after : string) (m : machine) :
  PyStr.all_chars PyStr.isspace before = true ->
  PyStr.all_chars PyStr.isspace after = true ->
  line_step (before ++ line ++ after)%string m = line_step line m.
Proof.
  intros Hb Ha. unfold process_line, parse_log_line.
  rewrite (strip_blanks before line after Hb Ha). reflexivity.
Qed.

End Reading.

(** The fields of a dict, with the missing ones at their defaults. *)
Lemma extract_fields_dict (items : list (string * pyval)) :
  let field k := match Py.lookup k items with
                 | Some v => v
                 | None => default_of k
                 end in
  extract_fields (PDict items)
  = res_bind (is_health_check (field "request")) (fun health =>
      if health then Ok None
      else res_bind (compute_is_error (field "upstream_status"))
             (fun is_error =>
                Ok (Some {| ri_pool := field "pool";
                            ri_status := field "status";
                            ri_is_error := is_error;
                            ri_time := field "time" |}))).
Proof.
  unfold extract_fields, Py.get.
  destruct (Py.lookup "pool" items), (Py.lookup "status" items),
    (Py.lookup "upstream_status" items), (Py.lookup "request" items),
    (Py.lookup "time" items); reflexivity.
Qed.

(** X15: reading the fields of a decoded object (lines 177-199) does not
    raise when its request is a string or is missing and its
    upstream_status is missing or is a string of ASCII characters that is
    not longer than the number of digits [int] accepts, whatever the
    other members of the object are. *)
Theorem typed_fields_never_raise (items : list (string * pyval)) :
  (Py.lookup "request" items = None
   \/ exists request, Py.lookup "request" items = Some (PStr request)) ->
  (Py.lookup "upstream_status" items = None
   \/ exists us, Py.lookup "upstream_status" items = Some (PStr us)
                 /\ PyStr.all_chars PyStr.isascii us = true
                 /\ (String.length us <= max_str_digits)%nat) ->
  exists fields, extract_fields (PDict items) = Ok fields.
Proof.
  intros Hrequest Hstatus.
  rewrite extract_fields_dict. cbv zeta.
  assert (Hr : exists request,
             match Py.lookup "request" items with
             | Some v => v
             | None => default_of "request"
             end = PStr request).
  { destruct Hrequest as [->|(request & ->)]; eexists; reflexivity. }
  destruct Hr as (request & ->).
  assert (Hu : exists us,
             match Py.lookup "upstream_status" items with
             | Some v => v
             | None => default_of "upstream_status"
             end = PStr us
             /\ PyStr.all_chars PyStr.isascii us = true
             /\ (String.length us <= max_str_digits)%nat).
  { destruct Hstatus as [->|(us & -> & Ha & Hl)]; eexists; split;
      try reflexivity; try (split; assumption).
    split; [reflexivity|]. unfold max_str_digits. simpl. lia. }
  destruct Hu as (us & -> & Ha & Hl).
  destruct (compute_is_error_returns us Ha Hl) as (b & ->).
  unfold is_health_check. simpl.
  destruct (PyStr.contains "nginx-health" request);
    [eexists; reflexivity|].
  destruct (PyStr.contains "healthz" request); eexists; reflexivity.
Qed.

(** Text appended to a file of 10 bytes. *)
Lemma poll_reads_what_was_appended_witness :
  let cfg := Sample.with_webhook false in
  let appended := (Sample.blue_line ++ Sample.nl)%string in
  poll cfg Sample.json_loads Sample.clock Sample.network_ok Sample.ascii
    (Some ("0123456789" ++ appended)%string) 10 initial
  = (Ok (10 + String.length appended)%nat,
     snd (poll cfg Sample.json_loads Sample.clock Sample.network_ok
            Sample.ascii (Some appended) 0 initial)).
Proof.
  intros cfg appended.
  destruct (poll_reads_what_was_appended cfg Sample.json_loads Sample.clock
              Sample.network_ok Sample.ascii "0123456789" appended initial)
    as [Hdecodes _].
  apply (Hdecodes appended). reflexivity.
Defined.

(** A batch of three lines whose second decodes to a list: the first
    line is tracked, the third is lost. *)
Lemma raising_line_drops_the_rest_witness :
  let cfg := Sample.with_webhook false in
  let content := (Sample.blue_line ++ Sample.nl ++ "[1]" ++ Sample.nl
                  ++ Sample.green_line ++ Sample.nl)%string in
  let step := process_line cfg Sample.json_loads Sample.clock
                Sample.network_ok in
  poll cfg Sample.json_loads Sample.clock Sample.network_ok Sample.ascii
    (Some content) 0 initial
  = (Ok (String.length content),
     snd (for_each step [(Sample.blue_line ++ Sample.nl)%string] initial)).
Proof.
  intros cfg content step.
  destruct (raising_line_drops_the_rest cfg Sample.json_loads Sample.clock
              Sample.network_ok Sample.ascii content 0
              (String.length content) initial
              [(Sample.blue_line ++ Sample.nl)%string]
              [(Sample.green_line ++ Sample.nl)%string]
              ("[1]" ++ Sample.nl)%string AttributeError)
    as [[Hfields _] _].
  - reflexivity.
  - apply Hfields.
    + repeat constructor; intros e0; vm_compute; discriminate.
    + exists (PList [PInt 1]). repeat split; reflexivity.
Defined.

Lemma blanks_around_a_line_do_not_matter_witness :
  let step := process_line (Sample.with_webhook false) Sample.json_loads
                Sample.clock Sample.network_ok in
  step ("  " ++ Sample.blue_line ++ Sample.nl)%string initial
  = step Sample.blue_line initial.
Proof.
  intros step.
  apply (blanks_around_a_line_do_not_matter (Sample.with_webhook false)
           Sample.json_loads Sample.clock Sample.network_ok
           "  " Sample.blue_line Sample.nl initial);
    reflexivity.
Defined.

Lemma typed_fields_never_raise_witness :
  exists fields, extract_fields Sample.green_log = Ok fields.
Proof.
  apply (typed_fields_never_raise
           [("pool", PStr "green"); ("upstream_status", PStr "502, 200");
            ("request", PStr "GET / HTTP/1.1")]).
  - right. exists "GET / HTTP/1.1"%string. reflexivity.
  - right. exists "502, 200"%string. split; [reflexivity|].
    split; [reflexivity|]. unfold max_str_digits. simpl. lia.
Defined.

(** ** The answers of the webhook *)

Lemma for_each_ext {A : Type} (f g : A -> M unit) (l : list A) (m : machine) :
  (forall x m0, f x m0 = g x m0) -> for_each f l m = for_each g l m.
Proof.
  intros H. revert m. induction l as [|x l IH]; intros m; simpl.
  - reflexivity.
  - unfold bind. rewrite H. destruct (g x m) as [[[]|e] m1];
      [apply IH|reflexivity].
Qed.

Section Answers.

Variable cfg : config.
Variable json_loads : string -> loads_result.
Variable clock : nat -> float.
Variables network1 network2 : nat -> response.
Variable encoding : codec.

Lemma send_slack_alert_same_machine
    (msg : message) (kind : string) (m : machine) :
  snd (send_slack_alert cfg clock network1 msg kind m)
  = snd (send_slack_alert cfg clock network2 msg kind m).
Proof.
  destruct (String.eqb_spec (SLACK_WEBHOOK_URL cfg) "") as [E|N].
  { rewrite !send_slack_alert_quiet by (left; exact E). reflexivity. }
  destruct (MAINTENANCE_MODE cfg && String.eqb kind "failover") eqn:Hm.
  { rewrite !send_slack_alert_quiet by (right; exact Hm). reflexivity. }
  rewrite !(send_slack_alert_posts clock _ cfg msg kind m N Hm). reflexivity.
Qed.

Lemma check_failover_same_machine (p : pyval) (m : machine) :
  check_failover cfg clock network1 p m = check_failover cfg clock network2 p m.
Proof.
  destruct (check_failover_cases cfg clock network1 p m)
    as [[Hl H]|[(Hn & Hsame & H)|[Hn Hne]]].
  - rewrite H. symmetry. apply check_failover_baseline, Hl.
  - rewrite H. symmetry. apply check_failover_same; assumption.
  - rewrite !check_failover_change_eq by assumption.
    rewrite send_slack_alert_same_machine. reflexivity.
Qed.

Lemma check_error_rate_same_machine (m : machine) :
  check_error_rate cfg clock network1 m = check_error_rate cfg clock network2 m.
Proof.
  destruct (Nat.lt_ge_cases (List.length (request_window m)) 10) as [Hs|Hl].
  - rewrite !check_error_rate_small by exact Hs. reflexivity.
  - destruct (PrimFloat.ltb (ERROR_RATE_THRESHOLD cfg)
                (error_rate_of (count_errors (request_window m))
                   (List.length (request_window m)))) eqn:Hb.
    + destruct (check_error_rate_breach_eq cfg clock network1 m Hl Hb)
        as (older1 & newest1 & Hw1 & H1).
      destruct (check_error_rate_breach_eq cfg clock network2 m Hl Hb)
        as (older2 & newest2 & Hw2 & H2).
      rewrite Hw1 in Hw2. apply app_inj_tail in Hw2. destruct Hw2 as [_ <-].
      rewrite H1, H2, send_slack_alert_same_machine. reflexivity.
    + rewrite !check_error_rate_below by exact Hb. reflexivity.
Qed.

Lemma process_line_same_machine (line : string) (m : machine) :
  process_line cfg json_loads clock network1 line m
  = process_line cfg json_loads clock network2 line m.
Proof.
  unfold process_line, bind, lift.
  destruct (parse_log_line json_loads line) as [log|e]; [|reflexivity].
  destruct (negb (Py.truthy log)); [reflexivity|].
  unfold process_log, bind, lift.
  destruct (extract_fields log) as [[info|]|e]; try reflexivity.
  rewrite !track_request_eq. rewrite check_error_rate_same_machine.
  destruct (Py.truthy (ri_pool info)); [|reflexivity].
  rewrite check_failover_same_machine. reflexivity.
Qed.

Lemma process_lines_same_machine (lines : list string) (m : machine) :
  process_lines cfg json_loads clock network1 lines m
  = process_lines cfg json_loads clock network2 lines m.
Proof.
  unfold process_lines, bind.
  destruct (for_each (first_loop_body json_loads) lines m) as [[[]|e] m1];
    [|reflexivity].
  apply for_each_ext, process_line_same_machine.
Qed.

(** X16: what the webhook answers, or that it fails, has no effect on the
    watcher: two runs of the tail loop that differ only in the outcomes
    of the posts end in the same machine, posts made included. *)
Theorem webhook_answers_do_not_matter
    (files : list (option string)) (last_position : nat) (m : machine) :
  poll_all cfg json_loads clock network1 encoding files last_position m
  = poll_all cfg json_loads clock network2 encoding files last_position m.
Proof.
  revert last_position m.
  induction files as [|file files IH]; intros last_position m; simpl.
  - reflexivity.
  - assert (Hpoll : poll cfg json_loads clock network1 encoding file
                      last_position m
                    = poll cfg json_loads clock network2 encoding file
                        last_position m).
    { destruct file as [content|]; [|reflexivity]. unfold poll.
      destruct (read_new_lines encoding content last_position)
        as [[lines position]|e]; [|reflexivity].
      unfold bind, try_except. rewrite process_lines_same_machine.
      reflexivity. }
    unfold bind. rewrite Hpoll.
    destruct (poll cfg json_loads clock network2 encoding file
                last_position m) as [[position|e] m1];
      [apply IH|reflexivity].
Qed.

End Answers.

(** ** Maintenance mode in the environment *)

Lemma lower_t (c : ascii) :
  Env.lower_char c = "t"%char <-> c = "t"%char \/ c = "T"%char.
Proof.
  split.
  - destruct c as [[] [] [] [] [] [] [] []]; vm_compute; intros H;
      first [discriminate H | left; reflexivity | right; reflexivity].
  - intros [->| ->]; reflexivity.
Qed.

Lemma lower_r (c : ascii) :
  Env.lower_char c = "r"%char <-> c = "r"%char \/ c = "R"%char.
Proof.
  split.
  - destruct c as [[] [] [] [] [] [] [] []]; vm_compute; intros H;
      first [discriminate H | left; reflexivity | right; reflexivity].
  - intros [->| ->]; reflexivity.
Qed.

Lemma lower_u (c : ascii) :
  Env.lower_char c = "u"%char <-> c = "u"%char \/ c = "U"%char.
Proof.
  split.
  - destruct c as [[] [] [] [] [] [] [] []]; vm_compute; intros H;
      first [discriminate H | left; reflexivity | right; reflexivity].
  - intros [->| ->]; reflexivity.
Qed.

Lemma lower_e (c : ascii) :
  Env.lower_char c = "e"%char <-> c = "e"%char \/ c = "E"%char.
Proof.
  split.
  - destruct c as [[] [] [] [] [] [] [] []]; vm_compute; intros H;
      first [discriminate H | left; reflexivity | right; reflexivity].
  - intros [->| ->]; reflexivity.
Qed.

(** X17: maintenance mode is on exactly when [MAINTENANCE_MODE] is set to
    the word true, in small or capital letters; it is off when the
    variable is not set, and for every other value, [1], [yes] and [on]
    among them. *)
Theorem maintenance_mode_spellings (value : option string) :
  Env.maintenance_mode value = true <->
  exists t r u e,
    value = Some (String t (String r (String u (String e EmptyString))))
    /\ (t = "t" \/ t = "T")%char /\ (r = "r" \/ r = "R")%char
    /\ (u = "u" \/ u = "U")%char /\ (e = "e" \/ e = "E")%char.
Proof.
  unfold Env.maintenance_mode. rewrite String.eqb_eq. split.
  - destruct value as [s|]; [|discriminate].
    destruct s as [|t [|r [|u [|e [|x s]]]]]; try discriminate.
    simpl. intros H. injection H as Ht Hr Hu He.
    exists t, r, u, e. split; [reflexivity|].
    rewrite <- lower_t, <- lower_r, <- lower_u, <- lower_e. auto.
  - intros (t & r & u & e & -> & Ht & Hr & Hu & He). simpl.
    apply lower_t in Ht. apply lower_r in Hr.
    apply lower_u in Hu. apply lower_e in He.
    rewrite Ht, Hr, Hu, He. reflexivity.
Qed.
